(** * NeuralMix P2P: the synchronisation and signal-routing core

    A shallow embedding of [audioSync.js] (class [AudioSync]: deck
    transport, parameter setters, BPM detection and BPM sync) and of
    [analogDeck.js] (class [AnalogDeck]: DVS control and MIDI dispatch,
    class [TimecodeDetector]).

    Conventions of the embedding.
    - A JavaScript number is an exact rational ([Q]); results are compared
      with [==].  Rounding of IEEE doubles is not modelled.  [Math.sqrt] is
      not a rational function: it is a parameter of the BPM section, and the
      store into a [Float32Array] goes through a parameter [fround].
    - [audioContext.currentTime] is read from a parameter [now] of each
      method that reads it: the clock belongs to the host.
    - The [Map] of decks is a [gmap string Deck]; a deck object is mutated
      through the map, so every alias of it sees the update.
    - An [AudioParam] is the last value scheduled on it with
      [setValueAtTime].  The wiring of audio nodes (connect/disconnect) and
      console output are left out.
    - A callback slot is a flag telling whether a handler is installed,
      next to the list of the payloads delivered to it.
    - The methods of [AudioSync] are the synchronous bodies of the calls.
      The [ended] events of the sources, whose handler [play] installs, are
      dispatched between the calls: module [Session]. *)

From Stdlib Require Import QArith Qminmax Qround Qabs ZArith Lia Lqa.
From stdpp Require Import gmap strings pretty.

Local Open Scope Q_scope.

(** ** Numbers and [Math] *)

Module Math.

Definition max (a b : Q) : Q := Qmax a b.
Definition min (a b : Q) : Q := Qmin a b.

(** [Math.abs] *)
Definition abs (a : Q) : Q := Qabs a.

(** [Math.floor], as an integer. *)
Definition floor (a : Q) : Z := Qfloor a.

(** [Math.round(x)] is [floor(x + 0.5)]. *)
Definition round (a : Q) : Q := inject_Z (Qfloor (a + 0.5)).

(** The double nearest to pi, [884279719003555 / 2^48]. *)
Definition PI : Q := 884279719003555 # 281474976710656.

End Math.

(** [a || b] on numbers: [a] when it is truthy (not zero), else [b]. *)
Definition js_or (a b : Q) : Q := if Qeq_bool a 0 then b else a.

(** [!x] on a number. *)
Definition js_not (a : Q) : bool := Qeq_bool a 0.

(** [a > b] as a boolean. *)
Definition gtb (a b : Q) : bool := negb (Qle_bool a b).

(** ** audioSync.js *)

Module AudioSync.

(** The part of an [AudioBuffer] the engine reads. *)
Record AudioBuffer := {
  channels : list (list Q);
  sampleRate : Q;
  buffer_duration : Q
}.

(** An [AudioBufferSourceNode] after [start(when, offset)]. *)
Record BufferSource := {
  source_buffer : AudioBuffer;
  source_playbackRate : Q;
  source_when : Q;
  source_offset : Q
}.

(** The deck object built by [createDeck]. *)
Record Deck := {
  id : string;
  gainNode : Q;
  filterHigh : Q;
  filterMid : Q;
  filterLow : Q;
  source : option BufferSource;
  buffer : option AudioBuffer;
  isPlaying : bool;
  currentTime : Q;
  startTime : Q;
  bpm : Q;
  duration : Q;
  playbackRate : Q
}.

Record SyncState := {
  masterDeck : option string;
  syncEnabled : bool;
  bpmOffset : Q
}.

(** Payload of [onSyncUpdate]. *)
Record SyncUpdate := {
  upd_master : string;
  upd_slave : string;
  upd_masterBPM : Q;
  upd_slaveBPM : Q;
  upd_adjustedRate : Q;
  upd_synced : bool
}.

(** The fields of the [AudioSync] instance that the methods below use. *)
Record t := {
  decks : gmap string Deck;
  syncState : SyncState;
  onSyncUpdate : bool;
  syncUpdates : list SyncUpdate
}.

(** *** Field updates *)

Definition with_gainNode (v : Q) (d : Deck) : Deck :=
  {| id := id d; gainNode := v; filterHigh := filterHigh d;
     filterMid := filterMid d; filterLow := filterLow d;
     source := source d; buffer := buffer d; isPlaying := isPlaying d;
     currentTime := currentTime d; startTime := startTime d; bpm := bpm d;
     duration := duration d; playbackRate := playbackRate d |}.

Definition with_filterHigh (v : Q) (d : Deck) : Deck :=
  {| id := id d; gainNode := gainNode d; filterHigh := v;
     filterMid := filterMid d; filterLow := filterLow d;
     source := source d; buffer := buffer d; isPlaying := isPlaying d;
     currentTime := currentTime d; startTime := startTime d; bpm := bpm d;
     duration := duration d; playbackRate := playbackRate d |}.

Definition with_filterMid (v : Q) (d : Deck) : Deck :=
  {| id := id d; gainNode := gainNode d; filterHigh := filterHigh d;
     filterMid := v; filterLow := filterLow d;
     source := source d; buffer := buffer d; isPlaying := isPlaying d;
     currentTime := currentTime d; startTime := startTime d; bpm := bpm d;
     duration := duration d; playbackRate := playbackRate d |}.

Definition with_filterLow (v : Q) (d : Deck) : Deck :=
  {| id := id d; gainNode := gainNode d; filterHigh := filterHigh d;
     filterMid := filterMid d; filterLow := v;
     source := source d; buffer := buffer d; isPlaying := isPlaying d;
     currentTime := currentTime d; startTime := startTime d; bpm := bpm d;
     duration := duration d; playbackRate := playbackRate d |}.

Definition with_source (v : option BufferSource) (d : Deck) : Deck :=
  {| id := id d; gainNode := gainNode d; filterHigh := filterHigh d;
     filterMid := filterMid d; filterLow := filterLow d;
     source := v; buffer := buffer d; isPlaying := isPlaying d;
     currentTime := currentTime d; startTime := startTime d; bpm := bpm d;
     duration := duration d; playbackRate := playbackRate d |}.

Definition with_isPlaying (v : bool) (d : Deck) : Deck :=
  {| id := id d; gainNode := gainNode d; filterHigh := filterHigh d;
     filterMid := filterMid d; filterLow := filterLow d;
     source := source d; buffer := buffer d; isPlaying := v;
     currentTime := currentTime d; startTime := startTime d; bpm := bpm d;
     duration := duration d; playbackRate := playbackRate d |}.

Definition with_currentTime (v : Q) (d : Deck) : Deck :=
  {| id := id d; gainNode := gainNode d; filterHigh := filterHigh d;
     filterMid := filterMid d; filterLow := filterLow d;
     source := source d; buffer := buffer d; isPlaying := isPlaying d;
     currentTime := v; startTime := startTime d; bpm := bpm d;
     duration := duration d; playbackRate := playbackRate d |}.

Definition with_startTime (v : Q) (d : Deck) : Deck :=
  {| id := id d; gainNode := gainNode d; filterHigh := filterHigh d;
     filterMid := filterMid d; filterLow := filterLow d;
     source := source d; buffer := buffer d; isPlaying := isPlaying d;
     currentTime := currentTime d; startTime := v; bpm := bpm d;
     duration := duration d; playbackRate := playbackRate d |}.

Definition with_playbackRate (v : Q) (d : Deck) : Deck :=
  {| id := id d; gainNode := gainNode d; filterHigh := filterHigh d;
     filterMid := filterMid d; filterLow := filterLow d;
     source := source d; buffer := buffer d; isPlaying := isPlaying d;
     currentTime := currentTime d; startTime := startTime d; bpm := bpm d;
     duration := duration d; playbackRate := v |}.

Definition with_source_rate (v : Q) (s : BufferSource) : BufferSource :=
  {| source_buffer := source_buffer s; source_playbackRate := v;
     source_when := source_when s; source_offset := source_offset s |}.

(** Mutation of the deck object stored under [deckId]. *)
Definition put_deck (this : t) (deckId : string) (d : Deck) : t :=
  {| decks := <[deckId := d]> (decks this); syncState := syncState this;
     onSyncUpdate := onSyncUpdate this; syncUpdates := syncUpdates this |}.

(** *** createDeck *)

Definition new_deck (deckId : string) : Deck :=
  {| id := deckId; gainNode := 1; filterHigh := 0; filterMid := 0;
     filterLow := 0; source := None; buffer := None; isPlaying := false;
     currentTime := 0; startTime := 0; bpm := 0; duration := 0;
     playbackRate := 1.0 |}.

Definition createDeck (this : t) (deckId : string) : Deck * t :=
  match decks this !! deckId with
  | Some deck => (deck, this)
  | None => (new_deck deckId, put_deck this deckId (new_deck deckId))
  end.

(** *** Transport *)

(** [play(deckId, offset = 0)]: [None] is the omitted argument.  This is
    the synchronous body of the call.  The handler it installs on
    [source.onended] is [onended] below; the host runs it later, in a task
    of its own, which is what [Session] models. *)
Definition play (now : Q) (this : t) (deckId : string) (offset : option Q)
  : bool * t :=
  let offset := default 0 offset in
  match decks this !! deckId with
  | None => (false, this)
  | Some deck =>
    match buffer deck with
    | None => (false, this)
    | Some buf =>
      let src := {| source_buffer := buf;
                    source_playbackRate := playbackRate deck;
                    source_when := now; source_offset := 0 |} in
      let startOffset := js_or offset (js_or (currentTime deck) 0) in
      let src := {| source_buffer := source_buffer src;
                    source_playbackRate := source_playbackRate src;
                    source_when := now; source_offset := startOffset |} in
      let deck := with_source (Some src) deck in
      let deck := with_isPlaying true deck in
      let deck := with_startTime (now - startOffset) deck in
      (true, put_deck this deckId deck)
    end
  end.

(** The body of the [source.onended] handler of [play], a closure over the
    deck object: [if (deck.isPlaying) { deck.isPlaying = false;
    deck.currentTime = 0 }].  It leaves [deck.source] as it is. *)
Definition ended (deck : Deck) : Deck :=
  if isPlaying deck
  then with_currentTime 0 (with_isPlaying false deck)
  else deck.

(** The dispatch of an [ended] event of a source of the deck [deckId]. *)
Definition onended (this : t) (deckId : string) : t :=
  {| decks := alter ended deckId (decks this); syncState := syncState this;
     onSyncUpdate := onSyncUpdate this; syncUpdates := syncUpdates this |}.

Definition pause (now : Q) (this : t) (deckId : string) : bool * t :=
  match decks this !! deckId with
  | None => (false, this)
  | Some deck =>
    if negb (isPlaying deck) then (false, this)
    else
      let deck := with_currentTime (now - startTime deck) deck in
      let deck := with_source None deck in
      let deck := with_isPlaying false deck in
      (true, put_deck this deckId deck)
  end.

Definition stop (this : t) (deckId : string) : bool * t :=
  match decks this !! deckId with
  | None => (false, this)
  | Some deck =>
    let deck := with_source None deck in
    let deck := with_isPlaying false deck in
    let deck := with_currentTime 0 deck in
    (true, put_deck this deckId deck)
  end.

Definition getCurrentTime (now : Q) (this : t) (deckId : string) : Q :=
  match decks this !! deckId with
  | None => 0
  | Some deck =>
    if isPlaying deck then now - startTime deck else currentTime deck
  end.

(** [seek(deckId, time)].  [deck] is a reference to the stored object, so
    after [pause] its fields are read again from the store. *)
Definition seek (now : Q) (this : t) (deckId : string) (time : Q) : t :=
  match decks this !! deckId with
  | None => this
  | Some deck =>
    match buffer deck with
    | None => this
    | Some _ =>
      let wasPlaying := isPlaying deck in
      let this := if wasPlaying then snd (pause now this deckId) else this in
      match decks this !! deckId with
      | None => this
      | Some deck =>
        let deck :=
          with_currentTime (Math.max 0 (Math.min time (duration deck)))
            deck in
        let this := put_deck this deckId deck in
        if wasPlaying
        then snd (play now this deckId (Some (currentTime deck)))
        else this
      end
    end
  end.

(** The transport bookkeeping of a deck is coherent when a deck that is
    marked as playing owns a source. *)
Definition transport_ok (deck : Deck) : Prop :=
  isPlaying deck = true -> is_Some (source deck).

(** *** Parameter setters *)

Definition setVolume (this : t) (deckId : string) (volume : Q) : t :=
  match decks this !! deckId with
  | Some deck =>
    let clampedVolume := Math.max 0 (Math.min 1 volume) in
    put_deck this deckId (with_gainNode clampedVolume deck)
  | None => this
  end.

(** [band] is [None] when the caller passes [undefined]. *)
Definition setEQ (this : t) (deckId : string) (band : option string)
    (gain : Q) : t :=
  match decks this !! deckId with
  | None => this
  | Some deck =>
    let clampedGain := Math.max (-40) (Math.min 40 gain) in
    match band with
    | Some "high"%string =>
        put_deck this deckId (with_filterHigh clampedGain deck)
    | Some "mid"%string =>
        put_deck this deckId (with_filterMid clampedGain deck)
    | Some "low"%string =>
        put_deck this deckId (with_filterLow clampedGain deck)
    | _ => this
    end
  end.

(** [deck.filterHigh.gain], [deck.filterMid.gain] or [deck.filterLow.gain],
    by the name of the band. *)
Definition band_gain (band : string) (deck : Deck) : option Q :=
  match band with
  | "high"%string => Some (filterHigh deck)
  | "mid"%string => Some (filterMid deck)
  | "low"%string => Some (filterLow deck)
  | _ => None
  end.

Definition setPlaybackRate (this : t) (deckId : string) (rate : Q) : t :=
  match decks this !! deckId with
  | None => this
  | Some deck =>
    let clampedRate := Math.max 0.5 (Math.min 2.0 rate) in
    let deck := with_playbackRate clampedRate deck in
    let deck :=
      match source deck with
      | Some src =>
        if isPlaying deck
        then with_source (Some (with_source_rate clampedRate src)) deck
        else deck
      | None => deck
      end in
    put_deck this deckId deck
  end.

(** Every deck of the engine has coherent transport bookkeeping. *)
Definition engine_ok (this : t) : Prop :=
  forall k deck, decks this !! k = Some deck -> transport_ok deck.

(** *** syncDecks *)

(** The object returned by [syncDecks]: [{success: false, reason}] or
    [{success: true, masterBPM, slaveBPM, playbackRate}]. *)
Inductive SyncResult :=
| SyncFailure (reason : string)
| SyncSuccess (masterBPM slaveBPM playbackRate : Q).

Definition success (r : SyncResult) : bool :=
  match r with SyncFailure _ => false | SyncSuccess _ _ _ => true end.

Definition with_syncState (v : SyncState) (this : t) : t :=
  {| decks := decks this; syncState := v;
     onSyncUpdate := onSyncUpdate this; syncUpdates := syncUpdates this |}.

(** [this.onSyncUpdate(payload)], when a handler is installed. *)
Definition notify_syncUpdate (payload : SyncUpdate) (this : t) : t :=
  if onSyncUpdate this
  then {| decks := decks this; syncState := syncState this;
          onSyncUpdate := onSyncUpdate this;
          syncUpdates := syncUpdates this ++ [payload] |}
  else this.

(** [masterDeck] and [slaveDeck] are references to the stored objects.  The
    only mutation between their reads is [setPlaybackRate], which writes
    [playbackRate] and the source (lemma [setPlaybackRate_bpm] below), so the
    later reads of [bpm] see the values read first. *)
Definition syncDecks (this : t) (masterDeckId slaveDeckId : string)
  : SyncResult * t :=
  match decks this !! masterDeckId, decks this !! slaveDeckId with
  | Some masterDeck, Some slaveDeck =>
    if js_not (bpm masterDeck) || js_not (bpm slaveDeck)
    then (SyncFailure "missing_bpm", this)
    else
      let bpmRatio := bpm masterDeck / bpm slaveDeck in
      let adjustedRate := playbackRate slaveDeck * bpmRatio in
      let this := setPlaybackRate this slaveDeckId adjustedRate in
      let this :=
        with_syncState
          {| masterDeck := Some masterDeckId; syncEnabled := true;
             bpmOffset := bpm masterDeck - bpm slaveDeck |} this in
      let this :=
        notify_syncUpdate
          {| upd_master := masterDeckId; upd_slave := slaveDeckId;
             upd_masterBPM := bpm masterDeck; upd_slaveBPM := bpm slaveDeck;
             upd_adjustedRate := adjustedRate; upd_synced := true |} this in
      (SyncSuccess (bpm masterDeck) (bpm slaveDeck) adjustedRate, this)
  | _, _ => (SyncFailure "missing_bpm", this)
  end.

(** *** BPM detection *)

Inductive JsError := TypeError | IndexSizeError.

(** Outcome of a block of statements: a value, or a thrown exception. *)
Inductive completion (A : Type) :=
| Return (a : A)
| Throw (e : JsError).
Arguments Return {A} a.
Arguments Throw {A} e.

Definition bind {A B} (c : completion A) (k : A -> completion B)
  : completion B :=
  match c with Return a => k a | Throw e => Throw e end.

Notation "x <- c ;; k" := (bind c (fun x => k))
  (at level 100, c at next level, right associativity).

(** [try { body } catch (error) { handler }] *)
Definition try_catch {A} (body : completion A)
    (handler : JsError -> completion A) : completion A :=
  match body with Return a => Return a | Throw e => handler e end.

(** [buffer.getChannelData(channel)]; [None] is a [null] buffer. *)
Definition getChannelData (buffer : option AudioBuffer) (channel : nat)
  : completion (list Q) :=
  match buffer with
  | None => Throw TypeError
  | Some b =>
    match channels b !! channel with
    | Some data => Return data
    | None => Throw IndexSizeError
    end
  end.

(** [buffer.sampleRate], read after [getChannelData] succeeded. *)
Definition get_sampleRate (buffer : option AudioBuffer) : completion Q :=
  match buffer with
  | None => Throw TypeError
  | Some b => Return (sampleRate b)
  end.

Section BPM.

(** [Math.sqrt], and the rounding of a store into a [Float32Array]. *)
Variable Math_sqrt : Q -> Q.
Variable fround : Q -> Q.

(** The loop of [lowPassFilter], from index 1 on; [prev] is
    [filtered[i - 1]]. *)
Fixpoint lowPass_loop (alpha prev : Q) (data : list Q) : list Q :=
  match data with
  | [] => []
  | x :: rest =>
    let y := fround (prev + alpha * (x - prev)) in
    y :: lowPass_loop alpha y rest
  end.

Definition lowPassFilter (data : list Q) (sampleRate cutoffFreq : Q)
  : list Q :=
  let RC := 1 / (2 * Math.PI * cutoffFreq) in
  let dt := 1 / sampleRate in
  let alpha := dt / (RC + dt) in
  match data with
  | [] => []
  | x0 :: rest => fround x0 :: lowPass_loop alpha (fround x0) rest
  end.

(** On an empty array JavaScript divides 0 by 0; the quotient is only used
    by a loop that does not run then. *)
Definition calculateThreshold (data : list Q) : Q :=
  let sum := fold_left (fun sum x => sum + x * x) data 0 in
  let rms := Math_sqrt (sum / inject_Z (Z.of_nat (length data))) in
  rms * 1.5.

(** [data[i]], for an index inside the array. *)
Definition at_index (data : list Q) (i : Z) : Q :=
  nth (Z.to_nat i) data 0.

(** One iteration of the loop of [detectPeaks]; the state is
    [(peaks, lastPeak)]. *)
Definition detectPeaks_body (data : list Q) (sampleRate threshold : Q)
    (minPeakDistance : Z) (st : list Q * Z) (i : Z) : list Q * Z :=
  let '(peaks, lastPeak) := st in
  if gtb (at_index data i) threshold
     && gtb (at_index data i) (at_index data (i - 1))
     && gtb (at_index data i) (at_index data (i + 1))
     && (minPeakDistance <=? i - lastPeak)%Z
  then (peaks ++ [inject_Z i / sampleRate], i)
  else (peaks, lastPeak).

(** [for (let i = 1; i < data.length - 1; i++)] *)
Definition detectPeaks (data : list Q) (sampleRate : Q) : list Q :=
  let minPeakDistance := Math.floor (sampleRate * 0.3) in
  let threshold := calculateThreshold data in
  let lastPeak := (- minPeakDistance)%Z in
  fst (fold_left
         (detectPeaks_body data sampleRate threshold minPeakDistance)
         (map Z.of_nat (seq 1 (length data - 2)))
         ([], lastPeak)).

(** [intervals.push(peaks[i] - peaks[i - 1])] for [i] from 1. *)
Fixpoint peak_intervals (peaks : list Q) : list Q :=
  match peaks with
  | a :: (b :: _) as rest => (b - a) :: peak_intervals rest
  | _ => []
  end.

(** [Array.prototype.sort] with the comparator [(a, b) => a - b]: a stable
    sort, here by insertion. *)
Fixpoint sort_insert (x : Q) (l : list Q) : list Q :=
  match l with
  | [] => [x]
  | y :: rest => if gtb (x - y) 0 then y :: sort_insert x rest else x :: l
  end.

Definition sort (l : list Q) : list Q := foldr sort_insert [] l.

(** The body of the [try] block of [detectBPM]. *)
Definition detectBPM_try (buffer : option AudioBuffer) : completion Q :=
  audioData <- getChannelData buffer 0 ;;
  sampleRate <- get_sampleRate buffer ;;
  let filtered := lowPassFilter audioData sampleRate 200 in
  let peaks := detectPeaks filtered sampleRate in
  let intervals := peak_intervals peaks in
  if (length intervals =? 0)%nat then Return 120
  else
    let intervals := sort intervals in
    let medianInterval := nth (length intervals / 2)%nat intervals 0 in
    let bpm := Math.round (60 / medianInterval) in
    let clampedBPM := Math.max 60 (Math.min 200 bpm) in
    Return clampedBPM.

(** The settlement of the promise returned by [detectBPM]: [Return v] when
    it resolves with [v], [Throw e] if an exception escaped. *)
Definition detectBPM (buffer : option AudioBuffer) : completion Q :=
  try_catch (detectBPM_try buffer) (fun error => Return 120).

End BPM.

(** What the loop of [detectPeaks] tests at index [i]: an inner sample,
    above the threshold and above both neighbours. *)
Definition is_peak (data : list Q) (threshold : Q) (i : Z) : Prop :=
  (1 <= i <= Z.of_nat (length data) - 2)%Z
  /\ threshold < at_index data i
  /\ at_index data (i - 1) < at_index data i
  /\ at_index data (i + 1) < at_index data i.

(** Sample indices in increasing order, any two of them at least [d]
    apart. *)
Definition spaced (d : Z) (idx : list Z) : Prop :=
  forall p q a b,
    (p < q)%nat -> idx !! p = Some a -> idx !! q = Some b ->
    (a < b)%Z /\ (a + d <= b)%Z.

End AudioSync.

(** ** Transport calls and the [ended] events between them

    A started source fires [ended] once: when it runs out of samples, or
    when [stop()] is called on it while it still has samples to play.  The
    event is queued and its handler runs before the next task.  A session is
    the engine together with the [ended] events of stopped sources that are
    queued; each transport call below is a task of its own, made at the
    instant [now], and the host first runs the handlers that are due. *)

Module Session.

Import AudioSync.

Record t := {
  engine : AudioSync.t;
  pendingEnded : list string
}.

(** The instant at which a started source runs out of samples.  The rate
    is the one the source was started with: the calls of a session are
    transport calls, which do not change the rate of a started source.  An
    offset at or past the end of the buffer makes the source run out at
    once. *)
Definition source_end (src : BufferSource) : Q :=
  source_when src
  + (buffer_duration (source_buffer src) - source_offset src)
    / source_playbackRate src.

(** Whether the source of the deck has run out of samples by [now]. *)
Definition ran_out (now : Q) (deck : Deck) : bool :=
  match source deck with
  | Some src => Qle_bool (source_end src) now
  | None => false
  end.

(** The handlers the host runs before a task at [now]: those of the queued
    events, then those of the sources that have run out by then.  (The
    handler has no effect the second time it runs for a source.) *)
Definition settle (now : Q) (s : t) : AudioSync.t :=
  let this := foldl onended (engine s) (pendingEnded s) in
  {| decks := (fun deck => if ran_out now deck then ended deck else deck)
                <$> decks this;
     syncState := syncState this; onSyncUpdate := onSyncUpdate this;
     syncUpdates := syncUpdates this |}.

(** [play] as a task: it calls [stop()] on the source the deck holds, which
    queues an [ended] event when that source had not run out. *)
Definition play (now : Q) (s : t) (deckId : string) (offset : option Q)
  : bool * t :=
  let this := settle now s in
  let stopped :=
    match decks this !! deckId with
    | Some deck =>
      match buffer deck, source deck with
      | Some _, Some _ => if ran_out now deck then [] else [deckId]
      | _, _ => []
      end
    | None => []
    end in
  (fst (AudioSync.play now this deckId offset),
   {| engine := snd (AudioSync.play now this deckId offset);
      pendingEnded := stopped |}).

(** [pause] as a task: when the deck is playing it calls [stop()] on its
    source. *)
Definition pause (now : Q) (s : t) (deckId : string) : bool * t :=
  let this := settle now s in
  let stopped :=
    match decks this !! deckId with
    | Some deck =>
      match isPlaying deck, source deck with
      | true, Some _ => if ran_out now deck then [] else [deckId]
      | _, _ => []
      end
    | None => []
    end in
  (fst (AudioSync.pause now this deckId),
   {| engine := snd (AudioSync.pause now this deckId);
      pendingEnded := stopped |}).

(** [getCurrentTime] as a task. *)
Definition getCurrentTime (now : Q) (s : t) (deckId : string) : Q :=
  AudioSync.getCurrentTime now (settle now s) deckId.

End Session.

(** ** analogDeck.js *)

Module TimecodeDetector.

Record TimecodeData := {
  position : Q;
  speed : Q;
  direction : string;
  quality : Q
}.

(** The detector: its running flag and its [onDetected] slot. *)
Record t := {
  isRunning : bool;
  onDetected : bool
}.

(** One poll cycle of [detect].  [freqData] is the byte spectrum the
    analyser writes; [rnd1], [rnd2], [rnd3] are the three successive results
    of [Math.random()].  The result is the payload handed to [onDetected],
    if any; the rescheduling through [requestAnimationFrame] is the caller's
    next call. *)
Definition detect (this : t) (freqData : list Z) (rnd1 rnd2 rnd3 : Q)
  : option TimecodeData :=
  if negb (isRunning this) then None
  else
    let avgLevel :=
      inject_Z (fold_left (fun a b => (a + b)%Z) freqData 0%Z)
      / inject_Z (Z.of_nat (length freqData)) in
    if gtb avgLevel 50 then
      let timecodeData :=
        {| position := rnd1 * 1000;
           speed := 1.0 + (rnd2 - 0.5) * 0.2;
           direction := if gtb rnd3 0.5 then "forward" else "backward";
           quality := Math.min 100 (avgLevel * 2) |} in
      if onDetected this then Some timecodeData else None
    else None.

End TimecodeDetector.

Module AnalogDeck.

Import TimecodeDetector.

Record MIDIMapping := {
  map_inputId : option string;
  map_note : Z;
  action : string;
  deckId : option string;
  parameter : option string
}.

Record MIDIEvent := {
  inputId : string;
  command : string;
  channel : Z;
  note : Z;
  velocity : Z;
  value : Q;
  timestamp : Q
}.

(** The fields of the [AnalogDeck] instance that the methods below use. *)
Record t := {
  audioSync : AudioSync.t;
  midiMappings : gmap string MIDIMapping;
  onMIDIMessage : bool;
  midiMessages : list MIDIEvent
}.

Definition with_audioSync (v : AudioSync.t) (this : t) : t :=
  {| audioSync := v; midiMappings := midiMappings this;
     onMIDIMessage := onMIDIMessage this;
     midiMessages := midiMessages this |}.

Definition with_midiMappings (v : gmap string MIDIMapping) (this : t) : t :=
  {| audioSync := audioSync this; midiMappings := v;
     onMIDIMessage := onMIDIMessage this;
     midiMessages := midiMessages this |}.

(** *** DVS *)

Definition applyDVSControl (this : t) (deckId : string)
    (timecodeData : TimecodeData) : t :=
  match AudioSync.decks (audioSync this) !! deckId with
  | None => this
  | Some deck =>
    match AudioSync.source deck with
    | None => this
    | Some _ =>
      let playbackRate :=
        speed timecodeData
        * (if String.eqb (direction timecodeData) "forward" then 1 else -1) in
      let this :=
        with_audioSync
          (AudioSync.setPlaybackRate (audioSync this) deckId
             (Math.abs playbackRate)) this in
      (* [deck] is the stored object: [deck.isPlaying] is read from it,
         and [setPlaybackRate] does not write that field *)
      if String.eqb (direction timecodeData) "backward"
         && AudioSync.isPlaying deck
      then with_audioSync
             (AudioSync.setPlaybackRate (audioSync this) deckId 0.1) this
      else this
    end
  end.

(** *** MIDI *)

(** A template literal prints a missing property as [undefined]. *)
Definition template_string (s : option string) : string :=
  default "undefined"%string s.

(** Whether a string contains the separator of the mapping keys. *)
Fixpoint has_dash (s : string) : bool :=
  match s with
  | EmptyString => false
  | String c rest => String.eqb (String c EmptyString) "-" || has_dash rest
  end.

(** The key [`${inputId}-${note}`]. *)
Definition mapping_key (inputId : string) (note : Z) : string :=
  (inputId +:+ "-" +:+ pretty note)%string.

Definition getMIDICommand (command : Z) : string :=
  match command with
  | 8 => "noteoff"
  | 9 => "noteon"
  | 10 => "aftertouch"
  | 11 => "controlchange"
  | 12 => "programchange"
  | 13 => "channelaftertouch"
  | 14 => "pitchbend"
  | _ => "unknown"
  end%Z%string.

Definition addMIDIMapping (this : t) (mapping : MIDIMapping) : t :=
  let key := mapping_key (template_string (map_inputId mapping))
                         (map_note mapping) in
  with_midiMappings (<[key := mapping]> (midiMappings this)) this.

Definition removeMIDIMapping (this : t) (inputId : string) (note : Z) : t :=
  let key := mapping_key inputId note in
  with_midiMappings (delete key (midiMappings this)) this.

(** A call [this.audioSync.m(deckId, ...)].  A mapping without [deckId]
    passes [undefined], which is the key of no deck: each method of
    [AudioSync] then returns without effect. *)
Definition call_on_deck (this : t) (deckId : option string)
    (m : AudioSync.t -> string -> AudioSync.t) : t :=
  match deckId with
  | Some d => with_audioSync (m (audioSync this) d) this
  | None => this
  end.

Definition applyMIDIMapping (now : Q) (this : t) (midiEvent : MIDIEvent)
  : t :=
  let key := mapping_key (inputId midiEvent) (note midiEvent) in
  match midiMappings this !! key with
  | None => this
  | Some mapping =>
    match action mapping with
    | "play" =>
      if String.eqb (command midiEvent) "noteon"
      then call_on_deck this (deckId mapping)
             (fun s d => snd (AudioSync.play now s d None))
      else this
    | "pause" =>
      if String.eqb (command midiEvent) "noteon"
      then call_on_deck this (deckId mapping)
             (fun s d => snd (AudioSync.pause now s d))
      else this
    | "volume" =>
      call_on_deck this (deckId mapping)
        (fun s d => AudioSync.setVolume s d (value midiEvent))
    | "crossfader" => this
    | "eq" =>
      let gain := (value midiEvent - 0.5) * 24 in
      call_on_deck this (deckId mapping)
        (fun s d => AudioSync.setEQ s d (parameter mapping) gain)
    | "pitch" =>
      let pitchRange := 0.16 in
      let pitchValue := 1 + ((value midiEvent - 0.5) * 2 * pitchRange) in
      call_on_deck this (deckId mapping)
        (fun s d => AudioSync.setPlaybackRate s d pitchValue)
    | "cue" => this
    | "hotcue" => this
    | _ => this
    end%string
  end.

(** A preset entry [{ note, action, deckId, parameter }]: the objects of
    [getControllerMappings] carry no [inputId]. *)
Definition preset (note : Z) (action : string) (deckId parameter
    : option string) : MIDIMapping :=
  {| map_inputId := None; map_note := note; action := action;
     deckId := deckId; parameter := parameter |}.

Definition pioneerDDJ : list MIDIMapping :=
  [ preset 11 "play" (Some "a") None;
    preset 43 "play" (Some "b") None;
    preset 13 "volume" (Some "a") None;
    preset 45 "volume" (Some "b") None;
    preset 16 "eq" (Some "a") (Some "high");
    preset 17 "eq" (Some "a") (Some "mid");
    preset 18 "eq" (Some "a") (Some "low");
    preset 48 "eq" (Some "b") (Some "high");
    preset 49 "eq" (Some "b") (Some "mid");
    preset 50 "eq" (Some "b") (Some "low");
    preset 8 "crossfader" None None ]%string.

(** The own properties of the object literal [mappingPresets]. *)
Definition mappingPresets : list (string * list MIDIMapping) :=
  [ ("pioneer-ddj", pioneerDDJ);
    ("pioneer-ddj-400", pioneerDDJ);
    ("numark-mixtrack", []);
    ("traktor-s2", []);
    ("generic", []) ]%string.

(** The names an object literal inherits from [Object.prototype]. *)
Definition Object_prototype : list string :=
  [ "constructor"; "__proto__"; "hasOwnProperty"; "isPrototypeOf";
    "propertyIsEnumerable"; "toLocaleString"; "toString"; "valueOf";
    "__defineGetter__"; "__defineSetter__"; "__lookupGetter__";
    "__lookupSetter__" ]%string.

(** The first own property named [key]. *)
Fixpoint own_property {A : Type} (o : list (string * A)) (key : string)
  : option A :=
  match o with
  | [] => None
  | (k, v) :: rest => if String.eqb key k then Some v else own_property rest key
  end.

(** What [mappingPresets[controllerType] || []] evaluates to: an array of
    mappings, or a member inherited from [Object.prototype], which is
    truthy and is no array. *)
Inductive PresetValue :=
| Mappings (mappings : list MIDIMapping)
| Inherited (name : string).

Definition getControllerMappings (controllerType : string) : PresetValue :=
  match own_property mappingPresets controllerType with
  | Some mappings => Mappings mappings
  | None =>
    if existsb (String.eqb controllerType) Object_prototype
    then Inherited controllerType
    else Mappings []
  end.

(** [mappings.forEach(mapping => this.addMIDIMapping(mapping))]; on an
    inherited member [forEach] is not a function and the call throws before
    any mapping is added. *)
Definition loadControllerMapping (this : t) (controllerType : string)
  : AudioSync.completion t :=
  match getControllerMappings controllerType with
  | Mappings mappings => AudioSync.Return (foldl addMIDIMapping this mappings)
  | Inherited _ => AudioSync.Throw AudioSync.TypeError
  end.

(** [message.data] is the byte triple [status, data1, data2]. *)
Definition handleMIDIMessage (now : Q) (this : t) (inputId : string)
    (status data1 data2 : Z) (timeStamp : Q) : t :=
  let command := Z.shiftr status 4 in
  let channel := Z.land status 15 in
  let midiEvent :=
    {| inputId := inputId; command := getMIDICommand command;
       channel := channel; note := data1; velocity := data2;
       value := inject_Z data2 / 127; timestamp := timeStamp |} in
  let this := applyMIDIMapping now this midiEvent in
  if onMIDIMessage this
  then {| audioSync := audioSync this; midiMappings := midiMappings this;
          onMIDIMessage := onMIDIMessage this;
          midiMessages := midiMessages this ++ [midiEvent] |}
  else this.

End AnalogDeck.

(** ** Sample states *)

Module Demo.

Definition track : AudioSync.AudioBuffer :=
  {| AudioSync.channels := [[0; 1; 0]]; AudioSync.sampleRate := 44100;
     AudioSync.buffer_duration := 180 |}.

(** A deck with a decoded track, an estimated tempo and a playback rate. *)
Definition loaded (deckId : string) (bpm rate : Q) : AudioSync.Deck :=
  {| AudioSync.id := deckId; AudioSync.gainNode := 1;
     AudioSync.filterHigh := 0; AudioSync.filterMid := 0;
     AudioSync.filterLow := 0; AudioSync.source := None;
     AudioSync.buffer := Some track; AudioSync.isPlaying := false;
     AudioSync.currentTime := 0; AudioSync.startTime := 0;
     AudioSync.bpm := bpm; AudioSync.duration := 180;
     AudioSync.playbackRate := rate |}.

(** The same deck while it plays from the start of the track. *)
Definition playing (deckId : string) (bpm rate : Q) : AudioSync.Deck :=
  AudioSync.with_isPlaying true
    (AudioSync.with_source
       (Some {| AudioSync.source_buffer := track;
                AudioSync.source_playbackRate := rate;
                AudioSync.source_when := 0; AudioSync.source_offset := 0 |})
       (loaded deckId bpm rate)).

(** A square root on rationals, rounded down to three decimals, and a
    rounding to 24 fractional bits: stand-ins for [Math.sqrt] and for the
    [Float32Array] store when the BPM code is run on sample data. *)
Definition sqrt_milli (x : Q) : Q :=
  Z.sqrt (Qnum x * 1000000 / Zpos (Qden x)) # 1000.

Definition fround_24 (x : Q) : Q :=
  Qred (Qfloor (x * 16777216 + (1 # 2)) # 16777216).

(** Ten samples per second, a unit impulse every [period] samples, [beats]
    times. *)
Definition click_track (period beats : nat) : AudioSync.AudioBuffer :=
  {| AudioSync.channels :=
       [concat (replicate beats (replicate (period - 1) 0 ++ [1])) ++ [0]];
     AudioSync.sampleRate := 10;
     AudioSync.buffer_duration :=
       inject_Z (Z.of_nat (period * beats + 1)) / 10 |}.

Definition engine (ds : list (string * AudioSync.Deck)) : AudioSync.t :=
  {| AudioSync.decks := list_to_map ds;
     AudioSync.syncState :=
       {| AudioSync.masterDeck := None; AudioSync.syncEnabled := false;
          AudioSync.bpmOffset := 0 |};
     AudioSync.onSyncUpdate := true; AudioSync.syncUpdates := [] |}.

Definition session (ds : list (string * AudioSync.Deck)) : Session.t :=
  {| Session.engine := engine ds; Session.pendingEnded := [] |}.

Definition hardware (ds : list (string * AudioSync.Deck))
    (ms : list AnalogDeck.MIDIMapping) : AnalogDeck.t :=
  foldl AnalogDeck.addMIDIMapping
    {| AnalogDeck.audioSync := engine ds; AnalogDeck.midiMappings := ∅;
       AnalogDeck.onMIDIMessage := true; AnalogDeck.midiMessages := [] |}
    ms.

End Demo.

(** * Properties *)

Import AudioSync.

(** ** Numeric helpers *)

Lemma clamp_bounds (lo hi x : Q) :
  lo <= hi -> lo <= Math.max lo (Math.min hi x) <= hi.
Proof.
  intros Hle. unfold Math.max, Math.min.
  destruct (Q.min_spec hi x) as [[Hx Hm]|[Hx Hm]];
    destruct (Q.max_spec lo (Qmin hi x)) as [[Hc HM]|[Hc HM]];
    rewrite HM; rewrite ?Hm in *; split; lra.
Qed.

Lemma clamp_inside (lo hi x : Q) :
  lo <= x <= hi -> Math.max lo (Math.min hi x) == x.
Proof.
  intros [H1 H2]. unfold Math.max, Math.min.
  rewrite (Q.min_r hi x H2). apply Q.max_r, H1.
Qed.

Lemma clamp_above (lo hi x : Q) :
  lo <= hi -> hi <= x -> Math.max lo (Math.min hi x) == hi.
Proof.
  intros H1 H2. unfold Math.max, Math.min.
  rewrite (Q.min_l hi x H2). apply Q.max_r, H1.
Qed.

Lemma clamp_below (lo hi x : Q) :
  lo <= hi -> x <= lo -> Math.max lo (Math.min hi x) == lo.
Proof.
  intros H1 H2. unfold Math.max, Math.min.
  assert (Qmin hi x == x) as -> by (apply Q.min_r; lra).
  apply Q.max_l, H2.
Qed.

Lemma gtb_true (a b : Q) : gtb a b = true <-> b < a.
Proof.
  unfold gtb. rewrite negb_true_iff. split.
  - intros H. apply Qnot_le_lt. intros Hle.
    apply Qle_bool_iff in Hle. congruence.
  - intros H. destruct (Qle_bool a b) eqn:E; [|reflexivity].
    apply Qle_bool_iff in E. lra.
Qed.

Lemma js_or_nonzero (a b : Q) : ~ a == 0 -> js_or a b = a.
Proof.
  intros H. unfold js_or. destruct (Qeq_bool a 0) eqn:E; [|reflexivity].
  apply Qeq_bool_iff in E. contradiction.
Qed.

Lemma js_or_zero (a b : Q) : a == 0 -> js_or a b = b.
Proof.
  intros H. unfold js_or. apply Qeq_bool_iff in H. now rewrite H.
Qed.

(** ** The store of decks *)

(** The deck object after [setPlaybackRate(deckId, rate)]. *)
Lemma setPlaybackRate_lookup (this : t) (deckId : string) (deck : Deck)
    (rate : Q) :
  decks this !! deckId = Some deck ->
  decks (setPlaybackRate this deckId rate) !! deckId
  = Some (let clampedRate := Math.max 0.5 (Math.min 2.0 rate) in
          let deck := with_playbackRate clampedRate deck in
          match source deck with
          | Some src =>
            if isPlaying deck
            then with_source (Some (with_source_rate clampedRate src)) deck
            else deck
          | None => deck
          end).
Proof.
  intros H. unfold setPlaybackRate. rewrite H. cbn [put_deck decks].
  apply lookup_insert_eq.
Qed.

Lemma setPlaybackRate_rate (this : t) (deckId : string) (deck : Deck)
    (rate : Q) :
  decks this !! deckId = Some deck ->
  exists deck',
    decks (setPlaybackRate this deckId rate) !! deckId = Some deck'
    /\ playbackRate deck' = Math.max 0.5 (Math.min 2.0 rate)
    /\ isPlaying deck' = isPlaying deck
    /\ bpm deck' = bpm deck
    /\ source deck'
       = (if isPlaying deck
          then with_source_rate (Math.max 0.5 (Math.min 2.0 rate))
                 <$> source deck
          else source deck).
Proof.
  intros H. eexists. split; [apply setPlaybackRate_lookup, H|].
  cbn zeta. destruct deck as [? ? ? ? ? [src|] ? [] ? ? ? ? ?];
    cbn; repeat split; reflexivity.
Qed.

(** [setPlaybackRate] writes no [bpm] field and creates no deck: the reads
    of [bpm] in [syncDecks] after it see what the reads before it saw. *)
Lemma setPlaybackRate_bpm (this : t) (deckId k : string) (rate : Q) :
  bpm <$> decks (setPlaybackRate this deckId rate) !! k
  = bpm <$> decks this !! k.
Proof.
  unfold setPlaybackRate. destruct (decks this !! deckId) as [deck|] eqn:H;
    [|reflexivity].
  cbn [put_deck decks]. destruct (decide (deckId = k)) as [->|Hne].
  - rewrite lookup_insert_eq, H. cbn.
    destruct (source deck), (isPlaying deck); reflexivity.
  - now rewrite lookup_insert_ne.
Qed.

(** ** Parameter setters *)

(** C6: for every existing deck, [setPlaybackRate] stores and applies its
    argument clamped into [0.5, 2.0]; a call with 3.0 leaves the rate 2.0 and
    a call with 0.1 leaves the rate 0.5.  The clamped value is also the one
    written to the source of a deck that is playing. *)
Theorem C6_setPlaybackRate_clamps (this : t) (deckId : string) (deck : Deck)
    (rate : Q) :
  decks this !! deckId = Some deck ->
  (exists d,
      decks (setPlaybackRate this deckId rate) !! deckId = Some d
      /\ playbackRate d == Math.max 0.5 (Math.min 2.0 rate)
      /\ 0.5 <= playbackRate d <= 2.0
      /\ (isPlaying deck = true ->
          forall src, source deck = Some src ->
          exists src', source d = Some src'
                       /\ source_playbackRate src' = playbackRate d))
  /\ (exists d,
        decks (setPlaybackRate this deckId 3.0) !! deckId = Some d
        /\ playbackRate d == 2.0)
  /\ (exists d,
        decks (setPlaybackRate this deckId 0.1) !! deckId = Some d
        /\ playbackRate d == 0.5).
Proof.
  intros H. split; [|split].
  - destruct (setPlaybackRate_rate this deckId deck rate H)
      as (d & Hd & Hr & _ & _ & Hs).
    exists d. split; [exact Hd|]. rewrite Hr.
    split; [reflexivity|]. split; [apply clamp_bounds; lra|].
    intros Hp src Hsrc. rewrite Hs, Hp, Hsrc. cbn. eauto.
  - destruct (setPlaybackRate_rate this deckId deck 3.0 H)
      as (d & Hd & Hr & _).
    exists d. split; [exact Hd|]. rewrite Hr. reflexivity.
  - destruct (setPlaybackRate_rate this deckId deck 0.1 H)
      as (d & Hd & Hr & _).
    exists d. split; [exact Hd|]. rewrite Hr. reflexivity.
Qed.

Lemma C6_setPlaybackRate_clamps_witness :
  decks (Demo.engine [("a"%string, Demo.playing "a" 128 1)]) !! "a"%string
  = Some (Demo.playing "a" 128 1)
  /\ exists d,
       decks (setPlaybackRate
                (Demo.engine [("a"%string, Demo.playing "a" 128 1)])
                "a" 3.0) !! "a"%string = Some d
       /\ playbackRate d == 2.0.
Proof.
  split; [reflexivity|].
  apply (C6_setPlaybackRate_clamps
           (Demo.engine [("a"%string, Demo.playing "a" 128 1)]) "a"
           (Demo.playing "a" 128 1) 1).
  reflexivity.
Defined.

(** ** DVS control *)

(** C1: on a playing deck, a backward timecode sample makes
    [applyDVSControl] call [setPlaybackRate(deckId, 0.1)], and that setter
    clamps to 0.5: the rate stored on the deck and the rate written to its
    source are both 0.5, not the 0.1 the call asks for. *)
Theorem C1_applyDVSControl_backward_rate (this : AnalogDeck.t)
    (deckId : string) (deck : Deck) (src : BufferSource)
    (timecodeData : TimecodeDetector.TimecodeData) :
  decks (AnalogDeck.audioSync this) !! deckId = Some deck ->
  source deck = Some src ->
  isPlaying deck = true ->
  TimecodeDetector.direction timecodeData = "backward"%string ->
  exists d src',
    decks (AnalogDeck.audioSync
             (AnalogDeck.applyDVSControl this deckId timecodeData)) !! deckId
    = Some d
    /\ playbackRate d == 0.5
    /\ source d = Some src'
    /\ source_playbackRate src' == 0.5
    /\ ~ playbackRate d == 0.1.
Proof.
  intros Hd Hsrc Hplay Hdir. unfold AnalogDeck.applyDVSControl.
  rewrite Hd, Hsrc, Hdir, Hplay. cbn [String.eqb Ascii.eqb Bool.eqb andb].
  cbn [AnalogDeck.with_audioSync AnalogDeck.audioSync].
  set (r := Math.abs _).
  destruct (setPlaybackRate_rate _ deckId deck r Hd)
    as (d1 & Hd1 & _ & Hp1 & _ & Hs1).
  destruct (setPlaybackRate_rate _ deckId d1 0.1 Hd1)
    as (d2 & Hd2 & Hr2 & _ & _ & Hs2).
  rewrite Hp1, Hplay in Hs2. rewrite Hplay, Hsrc in Hs1.
  rewrite Hs1 in Hs2. cbn in Hs2.
  exists d2. eexists. split; [exact Hd2|]. rewrite Hr2.
  split; [reflexivity|]. split; [exact Hs2|].
  split; [reflexivity|]. intros E. discriminate E.
Qed.

Lemma C1_applyDVSControl_backward_rate_witness :
  exists d src',
    decks (AnalogDeck.audioSync
             (AnalogDeck.applyDVSControl
                (Demo.hardware [("a"%string, Demo.playing "a" 128 1)] [])
                "a"
                {| TimecodeDetector.position := 500;
                   TimecodeDetector.speed := 1;
                   TimecodeDetector.direction := "backward";
                   TimecodeDetector.quality := 100 |})) !! "a"%string
    = Some d
    /\ playbackRate d == 0.5
    /\ source d = Some src'
    /\ source_playbackRate src' == 0.5
    /\ ~ playbackRate d == 0.1.
Proof.
  apply (C1_applyDVSControl_backward_rate
           (Demo.hardware [("a"%string, Demo.playing "a" 128 1)] []) "a"
           (Demo.playing "a" 128 1)
           {| source_buffer := Demo.track; source_playbackRate := 1;
              source_when := 0; source_offset := 0 |});
    reflexivity.
Defined.

(** ** BPM synchronisation *)

(** C2: with a master deck at 128 BPM and a slave deck at 124 BPM whose
    playback rate is 1.0, [syncDecks] returns [success: true], the two BPM
    values, and a rate equal to 128/124, which is about 1.032. *)
Theorem C2_syncDecks_128_124 (this : t) (m s : string) (dm ds : Deck) :
  decks this !! m = Some dm ->
  decks this !! s = Some ds ->
  bpm dm == 128 ->
  bpm ds == 124 ->
  playbackRate ds == 1.0 ->
  exists masterBPM slaveBPM rate,
    fst (syncDecks this m s) = SyncSuccess masterBPM slaveBPM rate
    /\ success (fst (syncDecks this m s)) = true
    /\ masterBPM == 128
    /\ slaveBPM == 124
    /\ rate == 128 / 124
    /\ 1.032 <= rate < 1.033.
Proof.
  intros Hm Hs Bm Bs Rs. unfold syncDecks. rewrite Hm, Hs.
  assert (js_not (bpm dm) = false) as ->.
  { unfold js_not. destruct (Qeq_bool (bpm dm) 0) eqn:E; [|reflexivity].
    apply Qeq_bool_iff in E. rewrite E in Bm. discriminate Bm. }
  assert (js_not (bpm ds) = false) as ->.
  { unfold js_not. destruct (Qeq_bool (bpm ds) 0) eqn:E; [|reflexivity].
    apply Qeq_bool_iff in E. rewrite E in Bs. discriminate Bs. }
  cbn [orb fst success]. do 3 eexists. split; [reflexivity|].
  split; [reflexivity|]. split; [exact Bm|]. split; [exact Bs|].
  rewrite Bm, Bs, Rs. split; [reflexivity|]. split; [discriminate|reflexivity].
Qed.

Lemma C2_syncDecks_128_124_witness :
  exists masterBPM slaveBPM rate,
    fst (syncDecks
           (Demo.engine [("a"%string, Demo.loaded "a" 128 1);
                         ("b"%string, Demo.loaded "b" 124 1)]) "a" "b")
    = SyncSuccess masterBPM slaveBPM rate
    /\ success
         (fst (syncDecks
                 (Demo.engine [("a"%string, Demo.loaded "a" 128 1);
                               ("b"%string, Demo.loaded "b" 124 1)])
                 "a" "b")) = true
    /\ masterBPM == 128
    /\ slaveBPM == 124
    /\ rate == 128 / 124
    /\ 1.032 <= rate < 1.033.
Proof.
  apply (C2_syncDecks_128_124
           (Demo.engine [("a"%string, Demo.loaded "a" 128 1);
                         ("b"%string, Demo.loaded "b" 124 1)])
           "a" "b" (Demo.loaded "a" 128 1) (Demo.loaded "b" 124 1));
    reflexivity.
Defined.

(** C3: when either deck is missing or either estimated BPM is 0,
    [syncDecks] returns [{success: false, reason: "missing_bpm"}] and the
    engine is left as it was: the decks (so both playback rates), the sync
    state and the list of delivered sync-update notifications. *)
Theorem C3_syncDecks_missing_bpm (this : t) (m s : string) :
  decks this !! m = None
  \/ decks this !! s = None
  \/ (exists d, decks this !! m = Some d /\ bpm d == 0)
  \/ (exists d, decks this !! s = Some d /\ bpm d == 0) ->
  syncDecks this m s = (SyncFailure "missing_bpm", this)
  /\ decks (snd (syncDecks this m s)) = decks this
  /\ syncState (snd (syncDecks this m s)) = syncState this
  /\ syncUpdates (snd (syncDecks this m s)) = syncUpdates this.
Proof.
  intros H.
  assert (syncDecks this m s = (SyncFailure "missing_bpm", this)) as E.
  { unfold syncDecks.
    destruct H as [H|[H|[(d & H & B)|(d & H & B)]]]; rewrite H.
    - reflexivity.
    - destruct (decks this !! m); reflexivity.
    - apply Qeq_bool_iff in B. unfold js_not at 1. rewrite B.
      destruct (decks this !! s); reflexivity.
    - apply Qeq_bool_iff in B.
      destruct (decks this !! m) as [dm|]; [|reflexivity].
      unfold js_not at 2. rewrite B. rewrite orb_true_r. reflexivity. }
  rewrite E. repeat split.
Qed.

Lemma C3_syncDecks_missing_bpm_witness :
  syncDecks
    (Demo.engine [("a"%string, Demo.loaded "a" 128 1);
                  ("b"%string, Demo.loaded "b" 0 1)]) "a" "b"
  = (SyncFailure "missing_bpm",
     Demo.engine [("a"%string, Demo.loaded "a" 128 1);
                  ("b"%string, Demo.loaded "b" 0 1)]).
Proof.
  apply (C3_syncDecks_missing_bpm
           (Demo.engine [("a"%string, Demo.loaded "a" 128 1);
                         ("b"%string, Demo.loaded "b" 0 1)]) "a" "b").
  right. right. right. exists (Demo.loaded "b" 0 1).
  split; reflexivity.
Defined.

(** ** Transport *)

Lemma play_loaded (now : Q) (this : t) (deckId : string) (deck : Deck)
    (buf : AudioBuffer) (offset : option Q) :
  decks this !! deckId = Some deck ->
  buffer deck = Some buf ->
  play now this deckId offset
  = (true,
     put_deck this deckId
       (with_startTime
          (now - js_or (default 0 offset) (js_or (currentTime deck) 0))
          (with_isPlaying true
             (with_source
                (Some {| source_buffer := buf;
                         source_playbackRate := playbackRate deck;
                         source_when := now;
                         source_offset :=
                           js_or (default 0 offset)
                                 (js_or (currentTime deck) 0) |}) deck)))).
Proof. intros H Hb. unfold play. now rewrite H, Hb. Qed.

Lemma pause_playing (now : Q) (this : t) (deckId : string) (deck : Deck) :
  decks this !! deckId = Some deck ->
  isPlaying deck = true ->
  pause now this deckId
  = (true,
     put_deck this deckId
       (with_isPlaying false
          (with_source None
             (with_currentTime (now - startTime deck) deck)))).
Proof. intros H Hp. unfold pause. now rewrite H, Hp. Qed.

Lemma put_deck_lookup (this : t) (deckId : string) (deck : Deck) :
  decks (put_deck this deckId deck) !! deckId = Some deck.
Proof. apply lookup_insert_eq. Qed.

Lemma put_deck_lookup_ne (this : t) (deckId k : string) (deck : Deck) :
  deckId <> k -> decks (put_deck this deckId deck) !! k = decks this !! k.
Proof. intros H. now apply lookup_insert_ne. Qed.

(** *** Sessions: the handlers run between the calls *)

Lemma ended_twice (deck : Deck) : ended (ended deck) = ended deck.
Proof. unfold ended. destruct (isPlaying deck) eqn:E; [reflexivity|]. now rewrite E. Qed.


Lemma onended_lookup (this : t) (k d : string) :
  decks (onended this k) !! d
  = if decide (k = d) then ended <$> decks this !! d else decks this !! d.
Proof.
  unfold onended. cbn [decks]. rewrite lookup_alter.
  case_decide; [subst; reflexivity | reflexivity].
Qed.


Lemma settle_lookup (now : Q) (s : Session.t) (d : string) :
  decks (Session.settle now s) !! d
  = (fun deck => if Session.ran_out now deck then ended deck else deck)
      <$> decks (foldl onended (Session.engine s) (Session.pendingEnded s))
          !! d.
Proof. unfold Session.settle. cbn [decks]. apply lookup_fmap. Qed.



(** A deck whose source has not run out, with no event queued, goes
    through unchanged. *)
Lemma settle_lookup_live (now : Q) (s : Session.t) (d : string)
    (deck : Deck) :
  Session.pendingEnded s = [] ->
  decks (Session.engine s) !! d = Some deck ->
  Session.ran_out now deck = false ->
  decks (Session.settle now s) !! d = Some deck.
Proof.
  intros Hq H Hr. rewrite settle_lookup, Hq. cbn [foldl]. rewrite H.
  cbn [fmap option_fmap option_map]. now rewrite Hr.
Qed.





(** C9: on a deck paused at a position [p > 0], [play] with an explicit
    offset of 0 does what [play] without offset does: the source starts at
    [p], and the position read right after is [p], not 0. *)
Theorem C9_play_zero_offset_resumes (now : Q) (this : t) (d : string)
    (deck : Deck) (buf : AudioBuffer) :
  decks this !! d = Some deck ->
  buffer deck = Some buf ->
  isPlaying deck = false ->
  0 < currentTime deck ->
  play now this d (Some 0) = play now this d None
  /\ fst (play now this d (Some 0)) = true
  /\ (exists deck' src,
        decks (snd (play now this d (Some 0))) !! d = Some deck'
        /\ source deck' = Some src
        /\ source_offset src = currentTime deck)
  /\ getCurrentTime now (snd (play now this d (Some 0))) d
     == currentTime deck.
Proof.
  intros H Hb Hp Hpos.
  split; [reflexivity|].
  rewrite (play_loaded now this d deck buf (Some 0) H Hb).
  cbn [snd fst default]. rewrite (js_or_zero 0) by reflexivity.
  rewrite (js_or_nonzero (currentTime deck)) by lra.
  split; [reflexivity|]. split.
  - do 2 eexists. split; [apply put_deck_lookup|]. cbn. split; reflexivity.
  - unfold getCurrentTime. rewrite put_deck_lookup.
    cbn [isPlaying startTime with_startTime with_isPlaying]. ring.
Qed.

Lemma C9_play_zero_offset_resumes_witness :
  getCurrentTime 50
    (snd (play 50
            (Demo.engine
               [("a"%string, with_currentTime 42 (Demo.loaded "a" 128 1))])
            "a" (Some 0))) "a"
  == 42.
Proof.
  apply (C9_play_zero_offset_resumes 50
           (Demo.engine
              [("a"%string, with_currentTime 42 (Demo.loaded "a" 128 1))])
           "a" (with_currentTime 42 (Demo.loaded "a" 128 1)) Demo.track);
    reflexivity.
Defined.

(** ** MIDI dispatch *)

(** C8: for an event whose mapping has action [eq], a band among high, mid
    and low and an existing target deck, and whose normalized value lies in
    [0, 1], the gain set on that band of the deck is [(value - 0.5) * 24]:
    0 dB at 0.5, +12 dB at 1.0 and -12 dB at 0.0. *)
Theorem C8_midi_eq_gain (now : Q) (this : AnalogDeck.t)
    (midiEvent : AnalogDeck.MIDIEvent) (mapping : AnalogDeck.MIDIMapping)
    (k band : string) (deck : Deck) :
  AnalogDeck.midiMappings this
    !! AnalogDeck.mapping_key (AnalogDeck.inputId midiEvent)
                              (AnalogDeck.note midiEvent)
  = Some mapping ->
  AnalogDeck.action mapping = "eq"%string ->
  AnalogDeck.deckId mapping = Some k ->
  AnalogDeck.parameter mapping = Some band ->
  band = "high"%string \/ band = "mid"%string \/ band = "low"%string ->
  decks (AnalogDeck.audioSync this) !! k = Some deck ->
  0 <= AnalogDeck.value midiEvent <= 1 ->
  exists d gain,
    decks (AnalogDeck.audioSync
             (AnalogDeck.applyMIDIMapping now this midiEvent)) !! k = Some d
    /\ band_gain band d = Some gain
    /\ gain == (AnalogDeck.value midiEvent - 0.5) * 24
    /\ (AnalogDeck.value midiEvent == 0.5 -> gain == 0)
    /\ (AnalogDeck.value midiEvent == 1.0 -> gain == 12)
    /\ (AnalogDeck.value midiEvent == 0.0 -> gain == -12).
Proof.
  intros Hmap Hact Hdeck Hpar Hband Hd Hv.
  unfold AnalogDeck.applyMIDIMapping. rewrite Hmap, Hact.
  cbv beta iota zeta. unfold AnalogDeck.call_on_deck. rewrite Hdeck, Hpar.
  cbn [AnalogDeck.audioSync AnalogDeck.with_audioSync].
  set (g := (AnalogDeck.value midiEvent - 0.5) * 24).
  assert (Hg : Math.max (-40) (Math.min 40 g) == g).
  { apply clamp_inside. unfold g. split; lra. }
  unfold setEQ. rewrite Hd.
  assert (forall gain, gain == g ->
            gain == g
            /\ (AnalogDeck.value midiEvent == 0.5 -> gain == 0)
            /\ (AnalogDeck.value midiEvent == 1.0 -> gain == 12)
            /\ (AnalogDeck.value midiEvent == 0.0 -> gain == -12)) as Hall.
  { intros gain E. split; [exact E|]. rewrite E. unfold g.
    repeat split; intros ->; reflexivity. }
  destruct Hband as [-> | [-> | ->]]; cbv beta iota;
    (do 2 eexists; split; [apply put_deck_lookup|];
     split; [reflexivity|]; apply Hall, Hg).
Qed.

Lemma C8_midi_eq_gain_witness :
  exists d gain,
    decks (AnalogDeck.audioSync
             (AnalogDeck.applyMIDIMapping 0
                (Demo.hardware [("a"%string, Demo.loaded "a" 128 1)]
                   [{| AnalogDeck.map_inputId := Some "in1"%string;
                       AnalogDeck.map_note := 16;
                       AnalogDeck.action := "eq";
                       AnalogDeck.deckId := Some "a"%string;
                       AnalogDeck.parameter := Some "high"%string |}])
                {| AnalogDeck.inputId := "in1";
                   AnalogDeck.command := "controlchange";
                   AnalogDeck.channel := 0; AnalogDeck.note := 16;
                   AnalogDeck.velocity := 127; AnalogDeck.value := 1;
                   AnalogDeck.timestamp := 0 |})) !! "a"%string = Some d
    /\ band_gain "high" d = Some gain
    /\ gain == (1 - 0.5) * 24
    /\ (1 == 0.5 -> gain == 0)
    /\ (1 == 1.0 -> gain == 12)
    /\ (1 == 0.0 -> gain == -12).
Proof.
  apply (C8_midi_eq_gain 0
           (Demo.hardware [("a"%string, Demo.loaded "a" 128 1)]
              [{| AnalogDeck.map_inputId := Some "in1"%string;
                  AnalogDeck.map_note := 16;
                  AnalogDeck.action := "eq";
                  AnalogDeck.deckId := Some "a"%string;
                  AnalogDeck.parameter := Some "high"%string |}])
           {| AnalogDeck.inputId := "in1";
              AnalogDeck.command := "controlchange";
              AnalogDeck.channel := 0; AnalogDeck.note := 16;
              AnalogDeck.velocity := 127; AnalogDeck.value := 1;
              AnalogDeck.timestamp := 0 |}
           {| AnalogDeck.map_inputId := Some "in1"%string;
              AnalogDeck.map_note := 16;
              AnalogDeck.action := "eq";
              AnalogDeck.deckId := Some "a"%string;
              AnalogDeck.parameter := Some "high"%string |}
           "a" "high" (Demo.loaded "a" 128 1)).
  - vm_compute. reflexivity.
  - reflexivity.
  - reflexivity.
  - reflexivity.
  - left. reflexivity.
  - reflexivity.
  - split; discriminate.
Defined.

(** ** Timecode detection *)

(** C10: every sample [detect] hands to [onDetected] has quality 100: a
    sample is built only when the average level exceeds 50, and
    [min(100, avgLevel * 2)] is then 100. *)
Theorem C10_detect_quality_100 (this : TimecodeDetector.t)
    (freqData : list Z) (rnd1 rnd2 rnd3 : Q)
    (sample : TimecodeDetector.TimecodeData) :
  TimecodeDetector.detect this freqData rnd1 rnd2 rnd3 = Some sample ->
  TimecodeDetector.quality sample == 100.
Proof.
  unfold TimecodeDetector.detect. intros H.
  destruct (negb (TimecodeDetector.isRunning this)); [discriminate|].
  match type of H with
  | (if gtb ?a 50 then _ else _) = _ =>
    destruct (gtb a 50) eqn:E; [|discriminate]; apply gtb_true in E
  end.
  destruct (TimecodeDetector.onDetected this); [|discriminate].
  injection H as <-. cbn [TimecodeDetector.quality]. unfold Math.min.
  apply Q.min_l. lra.
Qed.

Lemma C10_detect_quality_100_witness :
  TimecodeDetector.quality
    {| TimecodeDetector.position := (3 # 10) * 1000;
       TimecodeDetector.speed := 1.0 + ((4 # 10) - 0.5) * 0.2;
       TimecodeDetector.direction := "backward";
       TimecodeDetector.quality := Math.min 100 (inject_Z 181 / inject_Z 3 * 2) |}
  == 100.
Proof.
  apply (C10_detect_quality_100
           {| TimecodeDetector.isRunning := true;
              TimecodeDetector.onDetected := true |}
           [60; 70; 51]%Z (3 # 10) (4 # 10) (2 # 10)).
  reflexivity.
Defined.

(** ** BPM detection *)

Lemma clamp_integer (lo hi k : Z) :
  (lo <= hi)%Z ->
  exists z,
    Math.max (inject_Z lo) (Math.min (inject_Z hi) (inject_Z k))
    == inject_Z z
    /\ (lo <= z <= hi)%Z.
Proof.
  intros Hle. assert (inject_Z lo <= inject_Z hi) as HleQ
    by now rewrite <- Zle_Qle.
  destruct (Z_lt_le_dec k lo) as [Hk|Hk].
  - exists lo. split; [|lia].
    apply clamp_below; [exact HleQ|]. rewrite <- Zle_Qle. lia.
  - destruct (Z_lt_le_dec hi k) as [Hk'|Hk'].
    + exists hi. split; [|lia].
      apply clamp_above; [exact HleQ|]. rewrite <- Zle_Qle. lia.
    + exists k. split; [|lia].
      apply clamp_inside. rewrite <- !Zle_Qle. lia.
Qed.

Lemma peak_intervals_short (peaks : list Q) :
  (length peaks < 2)%nat -> peak_intervals peaks = [].
Proof.
  destruct peaks as [|a [|b rest]]; cbn; intros H; try reflexivity; lia.
Qed.

(** C4: on every decoded buffer (its sample rate is positive), the promise
    of [detectBPM] resolves with an integer between 60 and 200. *)
Theorem C4_detectBPM_integer_in_range (Math_sqrt fround : Q -> Q)
    (buffer : AudioBuffer) :
  0 < sampleRate buffer ->
  exists v z,
    detectBPM Math_sqrt fround (Some buffer) = Return v
    /\ v == inject_Z z
    /\ (60 <= z <= 200)%Z.
Proof.
  intros _. unfold detectBPM, detectBPM_try, getChannelData, get_sampleRate.
  destruct (channels buffer !! 0%nat) as [audioData|];
    cbn [bind try_catch].
  - match goal with
    | |- context [(length ?l =? 0)%nat] => destruct (length l =? 0)%nat
    end.
    + exists 120, 120%Z. repeat split; lia.
    + unfold Math.round.
      match goal with
      | |- context [inject_Z (Qfloor ?x)] =>
        destruct (clamp_integer 60 200 (Qfloor x)) as (z & Hz & Hr); [lia|]
      end.
      eexists. exists z. split; [reflexivity|]. split; [exact Hz|exact Hr].
  - exists 120, 120%Z. repeat split; lia.
Qed.

Lemma C4_detectBPM_integer_in_range_witness :
  0 < sampleRate (Demo.click_track 4 4)
  /\ exists v z,
       detectBPM Demo.sqrt_milli Demo.fround_24
         (Some (Demo.click_track 4 4)) = Return v
       /\ v == inject_Z z
       /\ (60 <= z <= 200)%Z.
Proof.
  split; [reflexivity|].
  apply (C4_detectBPM_integer_in_range Demo.sqrt_milli Demo.fround_24
           (Demo.click_track 4 4)).
  reflexivity.
Defined.

(** C5: when peak detection finds fewer than 2 peaks, the promise of
    [detectBPM] resolves with 120; and when the body of its [try] block
    throws, the exception is caught and the promise resolves with 120. *)
Theorem C5_detectBPM_default (Math_sqrt fround : Q -> Q)
    (buffer : option AudioBuffer) :
  (exists e, detectBPM_try Math_sqrt fround buffer = Throw e)
  \/ (exists b data,
        buffer = Some b
        /\ channels b !! 0%nat = Some data
        /\ (length
              (detectPeaks Math_sqrt
                 (lowPassFilter fround data (sampleRate b) 200)
                 (sampleRate b)) < 2)%nat) ->
  detectBPM Math_sqrt fround buffer = Return 120.
Proof.
  intros [[e He]|(b & data & -> & Hdata & Hlen)]; unfold detectBPM.
  - rewrite He. reflexivity.
  - unfold detectBPM_try, getChannelData, get_sampleRate.
    rewrite Hdata. cbn [bind try_catch].
    rewrite (peak_intervals_short _ Hlen). reflexivity.
Qed.

Lemma C5_detectBPM_default_witness :
  detectBPM Demo.sqrt_milli Demo.fround_24 (Some Demo.track) = Return 120.
Proof.
  apply (C5_detectBPM_default Demo.sqrt_milli Demo.fround_24
           (Some Demo.track)).
  right. exists Demo.track, [0; 1; 0]. split; [reflexivity|].
  split; [reflexivity|]. vm_compute. lia.
Defined.

(** * Further properties of the engine *)

(** ** Decks *)

Lemma createDeck_some (this : t) (deckId : string) (deck : Deck) :
  decks this !! deckId = Some deck ->
  createDeck this deckId = (deck, this).
Proof. intros H. unfold createDeck. now rewrite H. Qed.

Lemma createDeck_none (this : t) (deckId : string) :
  decks this !! deckId = None ->
  createDeck this deckId
  = (new_deck deckId, put_deck this deckId (new_deck deckId)).
Proof. intros H. unfold createDeck. now rewrite H. Qed.

(** [createDeck] is idempotent: a second call with the same id returns the
    deck of the first call and changes nothing; on an id that is already
    there the first call itself returns the stored deck, parameters
    included, and changes nothing. *)
Theorem createDeck_idempotent (this : t) (deckId : string) :
  createDeck (snd (createDeck this deckId)) deckId
  = (fst (createDeck this deckId), snd (createDeck this deckId))
  /\ (decks this !! deckId = None \/
      createDeck this deckId = (default (new_deck deckId)
                                  (decks this !! deckId), this)).
Proof.
  destruct (decks this !! deckId) as [deck|] eqn:H.
  - rewrite (createDeck_some this deckId deck H). cbn [fst snd default].
    split; [apply createDeck_some, H | right; reflexivity].
  - rewrite (createDeck_none this deckId H). cbn [fst snd].
    split; [apply createDeck_some, put_deck_lookup | left; reflexivity].
Qed.

(** ** Setters *)

(** [setEQ] on a band among high, mid and low stores the gain clamped into
    [-40, 40] on that band; the two other bands, the volume and the
    playback rate keep their values. *)
Theorem setEQ_clamps (this : t) (deckId band : string) (deck : Deck)
    (gain : Q) :
  decks this !! deckId = Some deck ->
  band = "high"%string \/ band = "mid"%string \/ band = "low"%string ->
  exists d g,
    decks (setEQ this deckId (Some band) gain) !! deckId = Some d
    /\ band_gain band d = Some g
    /\ g = Math.max (-40) (Math.min 40 gain)
    /\ -40 <= g <= 40
    /\ (band <> "high"%string -> filterHigh d = filterHigh deck)
    /\ (band <> "mid"%string -> filterMid d = filterMid deck)
    /\ (band <> "low"%string -> filterLow d = filterLow deck)
    /\ gainNode d = gainNode deck
    /\ playbackRate d = playbackRate deck.
Proof.
  intros H Hband. unfold setEQ. rewrite H.
  destruct Hband as [-> | [-> | ->]]; cbv beta iota zeta;
    (do 2 eexists; split; [apply put_deck_lookup|];
     split; [reflexivity|]; split; [reflexivity|];
     split; [apply clamp_bounds; lra|];
     cbn; repeat split; intros; congruence).
Qed.

Lemma setEQ_clamps_witness :
  exists d g,
    decks (setEQ (Demo.engine [("a"%string, Demo.loaded "a" 128 1)]) "a"
             (Some "low"%string) (-60)) !! "a"%string = Some d
    /\ band_gain "low" d = Some g
    /\ g = Math.max (-40) (Math.min 40 (-60))
    /\ -40 <= g <= 40
    /\ ("low"%string <> "high"%string ->
        filterHigh d = filterHigh (Demo.loaded "a" 128 1))
    /\ ("low"%string <> "mid"%string ->
        filterMid d = filterMid (Demo.loaded "a" 128 1))
    /\ ("low"%string <> "low"%string ->
        filterLow d = filterLow (Demo.loaded "a" 128 1))
    /\ gainNode d = gainNode (Demo.loaded "a" 128 1)
    /\ playbackRate d = playbackRate (Demo.loaded "a" 128 1).
Proof.
  apply (setEQ_clamps (Demo.engine [("a"%string, Demo.loaded "a" 128 1)])
           "a" "low" (Demo.loaded "a" 128 1) (-60)).
  - reflexivity.
  - right. right. reflexivity.
Defined.

(** [setVolume] stores the volume clamped into [0, 1] on the gain of the
    deck and touches neither the EQ, nor the rate, nor the transport. *)
Theorem setVolume_clamps (this : t) (deckId : string) (deck : Deck)
    (volume : Q) :
  decks this !! deckId = Some deck ->
  exists d,
    decks (setVolume this deckId volume) !! deckId = Some d
    /\ gainNode d = Math.max 0 (Math.min 1 volume)
    /\ 0 <= gainNode d <= 1
    /\ with_gainNode (gainNode deck) d = deck.
Proof.
  intros H. unfold setVolume. rewrite H. eexists.
  split; [apply put_deck_lookup|]. cbn [gainNode with_gainNode].
  split; [reflexivity|]. split; [apply clamp_bounds; lra|].
  destruct deck; reflexivity.
Qed.

Lemma setVolume_clamps_witness :
  exists d,
    decks (setVolume (Demo.engine [("a"%string, Demo.loaded "a" 128 1)])
             "a" 7) !! "a"%string = Some d
    /\ gainNode d = Math.max 0 (Math.min 1 7)
    /\ 0 <= gainNode d <= 1
    /\ with_gainNode (gainNode (Demo.loaded "a" 128 1)) d
       = Demo.loaded "a" 128 1.
Proof.
  apply (setVolume_clamps
           (Demo.engine [("a"%string, Demo.loaded "a" 128 1)]) "a"
           (Demo.loaded "a" 128 1) 7).
  reflexivity.
Defined.

(** ** Transport: failures, stop and seek *)

(** [play] returns [false] exactly when the deck is unknown or has no
    decoded buffer, and [pause] returns [false] exactly when the deck is
    unknown or is not playing; a call that returns [false] leaves the engine
    as it is. *)
Theorem transport_refusals (now : Q) (this : t) (deckId : string)
    (offset : option Q) :
  (fst (play now this deckId offset) = false
   <-> decks this !! deckId = None
       \/ exists deck, decks this !! deckId = Some deck
                       /\ buffer deck = None)
  /\ (fst (play now this deckId offset) = false ->
      snd (play now this deckId offset) = this)
  /\ (fst (pause now this deckId) = false
      <-> decks this !! deckId = None
          \/ exists deck, decks this !! deckId = Some deck
                          /\ isPlaying deck = false)
  /\ (fst (pause now this deckId) = false ->
      snd (pause now this deckId) = this).
Proof.
  unfold play, pause.
  destruct (decks this !! deckId) as [deck|] eqn:H.
  - destruct (buffer deck) as [buf|] eqn:Hb;
      destruct (isPlaying deck) eqn:Hp; cbn [fst snd negb];
      repeat split; try discriminate; try reflexivity; eauto;
      intros [E|(deck' & [= <-] & E)]; congruence.
  - cbn [fst snd]. repeat split; eauto.
Qed.

Lemma transport_refusals_witness :
  snd (pause 5
         (Demo.engine [("a"%string, new_deck "a");
                       ("b"%string, Demo.loaded "b" 124 1)]) "b")
  = Demo.engine [("a"%string, new_deck "a");
                 ("b"%string, Demo.loaded "b" 124 1)].
Proof.
  apply (transport_refusals 5
           (Demo.engine [("a"%string, new_deck "a");
                         ("b"%string, Demo.loaded "b" 124 1)])
           "b" None).
  reflexivity.
Defined.

(** [stop] on an existing deck, whatever its state, releases the source,
    marks the deck as not playing and puts the position at 0; a following
    [play] without offset on a loaded deck starts at the beginning. *)
Theorem stop_resets (now : Q) (this : t) (deckId : string) (deck : Deck) :
  decks this !! deckId = Some deck ->
  fst (stop this deckId) = true
  /\ (exists d,
        decks (snd (stop this deckId)) !! deckId = Some d
        /\ source d = None /\ isPlaying d = false /\ currentTime d = 0)
  /\ getCurrentTime now (snd (stop this deckId)) deckId = 0
  /\ (is_Some (buffer deck) ->
      exists d src,
        decks (snd (play now (snd (stop this deckId)) deckId None))
          !! deckId = Some d
        /\ source d = Some src
        /\ source_offset src = 0
        /\ startTime d == now).
Proof.
  intros H. unfold stop. rewrite H. cbn [fst snd].
  split; [reflexivity|]. split.
  { eexists. split; [apply put_deck_lookup|]. repeat split. }
  split.
  { unfold getCurrentTime. rewrite put_deck_lookup. reflexivity. }
  intros [buf Hb].
  erewrite play_loaded; [|apply put_deck_lookup|cbn; exact Hb].
  cbn [snd default currentTime with_currentTime with_isPlaying with_source].
  do 2 eexists. split; [apply put_deck_lookup|].
  cbn [source with_startTime with_isPlaying with_source source_offset
       startTime].
  split; [reflexivity|]. split; [reflexivity|].
  change (js_or 0 (js_or 0 0)) with 0. ring.
Qed.

Lemma stop_resets_witness :
  getCurrentTime 9
    (snd (stop (Demo.engine [("a"%string, Demo.playing "a" 128 1)]) "a"))
    "a" = 0.
Proof.
  apply (stop_resets 9 (Demo.engine [("a"%string, Demo.playing "a" 128 1)])
           "a" (Demo.playing "a" 128 1)).
  reflexivity.
Defined.



(** ** An invariant of the transport bookkeeping *)

Lemma engine_ok_put (this : t) (k : string) (d : Deck) :
  engine_ok this -> transport_ok d -> engine_ok (put_deck this k d).
Proof.
  intros Hok Hd k' deck'. cbn [put_deck decks]. rewrite lookup_insert.
  case_decide; [intros [= <-]; exact Hd | apply Hok].
Qed.

Lemma engine_ok_same_decks (this this' : t) :
  decks this' = decks this -> engine_ok this -> engine_ok this'.
Proof. intros E Hok k deck. rewrite E. apply Hok. Qed.

Lemma play_ok (now : Q) (this : t) (k : string) (offset : option Q) :
  engine_ok this -> engine_ok (snd (play now this k offset)).
Proof.
  intros Hok. unfold play. destruct (decks this !! k) as [deck|]; [|exact Hok].
  destruct (buffer deck); [|exact Hok]. cbn [snd].
  apply engine_ok_put; [exact Hok|]. intros _. cbn. eauto.
Qed.

Lemma pause_ok (now : Q) (this : t) (k : string) :
  engine_ok this -> engine_ok (snd (pause now this k)).
Proof.
  intros Hok. unfold pause.
  destruct (decks this !! k) as [deck|]; [|exact Hok].
  destruct (negb (isPlaying deck)); [exact Hok|]. cbn [snd].
  apply engine_ok_put; [exact Hok|]. intros Hp. discriminate Hp.
Qed.

Lemma stop_ok (this : t) (k : string) :
  engine_ok this -> engine_ok (snd (stop this k)).
Proof.
  intros Hok. unfold stop.
  destruct (decks this !! k) as [deck|]; [|exact Hok]. cbn [snd].
  apply engine_ok_put; [exact Hok|]. intros Hp. discriminate Hp.
Qed.

Lemma setPlaybackRate_ok (this : t) (k : string) (rate : Q) :
  engine_ok this -> engine_ok (setPlaybackRate this k rate).
Proof.
  intros Hok. unfold setPlaybackRate.
  destruct (decks this !! k) as [deck|] eqn:H; [|exact Hok].
  apply engine_ok_put; [exact Hok|]. pose proof (Hok k deck H) as Hd.
  unfold transport_ok in *.
  destruct deck as [? ? ? ? ? [src|] ? [] ? ? ? ? ?]; cbn in *; eauto.
Qed.

Lemma seek_ok (now : Q) (this : t) (k : string) (time : Q) :
  engine_ok this -> engine_ok (seek now this k time).
Proof.
  intros Hok. unfold seek.
  destruct (decks this !! k) as [deck|]; [|exact Hok].
  destruct (buffer deck); [|exact Hok].
  destruct (isPlaying deck).
  - pose proof (pause_ok now this k Hok) as Hok1.
    destruct (decks (snd (pause now this k)) !! k) as [deck1|] eqn:H1;
      [|exact Hok1].
    apply play_ok, engine_ok_put; [exact Hok1|].
    exact (Hok1 k deck1 H1).
  - destruct (decks this !! k) as [deck1|] eqn:H1; [|exact Hok].
    apply engine_ok_put; [exact Hok|]. exact (Hok k deck1 H1).
Qed.

Lemma demo_engine_ok :
  engine_ok (Demo.engine [("a"%string, Demo.playing "a" 128 1);
                          ("b"%string, Demo.loaded "b" 124 1)]).
Proof.
  intros k deck. unfold Demo.engine. cbn [decks list_to_map foldr].
  rewrite lookup_insert. case_decide.
  - intros [= <-] _. cbn. eauto.
  - rewrite lookup_insert. case_decide; [|rewrite lookup_empty; discriminate].
    intros [= <-] Hp. discriminate Hp.
Qed.

(** A deck marked as playing always owns a source: every operation of the
    engine keeps this true of every deck. *)
Theorem engine_ok_preserved (now : Q) (this : t) (k k' : string)
    (offset : option Q) (x : Q) (band : option string) :
  engine_ok this ->
  engine_ok (snd (createDeck this k))
  /\ engine_ok (snd (play now this k offset))
  /\ engine_ok (snd (pause now this k))
  /\ engine_ok (snd (stop this k))
  /\ engine_ok (seek now this k x)
  /\ engine_ok (setVolume this k x)
  /\ engine_ok (setEQ this k band x)
  /\ engine_ok (setPlaybackRate this k x)
  /\ engine_ok (snd (syncDecks this k k')).
Proof.
  intros Hok.
  split.
  { unfold createDeck. destruct (decks this !! k); [exact Hok|].
    apply engine_ok_put; [exact Hok|]. intros Hp. discriminate Hp. }
  split; [apply play_ok, Hok|]. split; [apply pause_ok, Hok|].
  split; [apply stop_ok, Hok|]. split; [apply seek_ok, Hok|].
  split.
  { unfold setVolume. destruct (decks this !! k) as [deck|] eqn:H;
      [|exact Hok].
    apply engine_ok_put; [exact Hok|]. exact (Hok k deck H). }
  split.
  { unfold setEQ. destruct (decks this !! k) as [deck|] eqn:H; [|exact Hok].
    pose proof (Hok k deck H) as Hd.
    repeat (match goal with
            | |- engine_ok (match ?b with _ => _ end) => destruct b
            end; try exact Hok);
      (apply engine_ok_put; [exact Hok|exact Hd]). }
  split; [apply setPlaybackRate_ok, Hok|].
  unfold syncDecks.
  destruct (decks this !! k) as [dm|]; [|exact Hok].
  destruct (decks this !! k') as [ds|]; [|exact Hok].
  destruct (js_not (bpm dm) || js_not (bpm ds)); [exact Hok|]. cbn [snd].
  eapply engine_ok_same_decks; [|apply setPlaybackRate_ok, Hok].
  unfold notify_syncUpdate, with_syncState. cbn [onSyncUpdate].
  destruct (onSyncUpdate _); reflexivity.
Qed.

Lemma engine_ok_preserved_witness :
  engine_ok
    (seek 4 (Demo.engine [("a"%string, Demo.playing "a" 128 1);
                          ("b"%string, Demo.loaded "b" 124 1)]) "a" 60).
Proof.
  apply (engine_ok_preserved 4
           (Demo.engine [("a"%string, Demo.playing "a" 128 1);
                         ("b"%string, Demo.loaded "b" 124 1)])
           "a" "b" None 60 None).
  exact demo_engine_ok.
Defined.

(** ** More on BPM synchronisation *)

Lemma setPlaybackRate_other (this : t) (deckId k : string) (rate : Q) :
  deckId <> k ->
  decks (setPlaybackRate this deckId rate) !! k = decks this !! k.
Proof.
  intros Hne. unfold setPlaybackRate.
  destruct (decks this !! deckId); [|reflexivity].
  now apply put_deck_lookup_ne.
Qed.

Lemma js_not_false (a : Q) : ~ a == 0 -> js_not a = false.
Proof.
  intros H. unfold js_not. destruct (Qeq_bool a 0) eqn:E; [|reflexivity].
  apply Qeq_bool_iff in E. contradiction.
Qed.

Lemma syncDecks_ok (this : t) (m s : string) (dm ds : Deck) :
  decks this !! m = Some dm ->
  decks this !! s = Some ds ->
  ~ bpm dm == 0 ->
  ~ bpm ds == 0 ->
  syncDecks this m s
  = (SyncSuccess (bpm dm) (bpm ds)
       (playbackRate ds * (bpm dm / bpm ds)),
     notify_syncUpdate
       {| upd_master := m; upd_slave := s; upd_masterBPM := bpm dm;
          upd_slaveBPM := bpm ds;
          upd_adjustedRate := playbackRate ds * (bpm dm / bpm ds);
          upd_synced := true |}
       (with_syncState
          {| masterDeck := Some m; syncEnabled := true;
             bpmOffset := bpm dm - bpm ds |}
          (setPlaybackRate this s
             (playbackRate ds * (bpm dm / bpm ds))))).
Proof.
  intros Hm Hs Bm Bs. unfold syncDecks.
  now rewrite Hm, Hs, (js_not_false _ Bm), (js_not_false _ Bs).
Qed.

Lemma notify_decks (p : SyncUpdate) (v : SyncState) (this : t) :
  decks (notify_syncUpdate p (with_syncState v this)) = decks this.
Proof.
  unfold notify_syncUpdate, with_syncState. cbn [onSyncUpdate].
  now destruct (onSyncUpdate this).
Qed.

(** A successful [syncDecks] records the master, the enabled flag and the
    BPM offset, delivers one notification when a handler is installed, and
    leaves every deck but the slave as it was.  The rate it returns is the
    product [slave rate * masterBPM / slaveBPM]; the rate the slave gets is
    that product clamped into [0.5, 2.0]. *)
Theorem syncDecks_effects (this : t) (m s : string) (dm ds : Deck) :
  decks this !! m = Some dm ->
  decks this !! s = Some ds ->
  ~ bpm dm == 0 ->
  ~ bpm ds == 0 ->
  let rate := playbackRate ds * (bpm dm / bpm ds) in
  let this' := snd (syncDecks this m s) in
  fst (syncDecks this m s) = SyncSuccess (bpm dm) (bpm ds) rate
  /\ syncState this'
     = {| masterDeck := Some m; syncEnabled := true;
          bpmOffset := bpm dm - bpm ds |}
  /\ syncUpdates this'
     = syncUpdates this
       ++ (if onSyncUpdate this
           then [{| upd_master := m; upd_slave := s;
                    upd_masterBPM := bpm dm; upd_slaveBPM := bpm ds;
                    upd_adjustedRate := rate; upd_synced := true |}]
           else [])
  /\ (exists d,
        decks this' !! s = Some d
        /\ playbackRate d = Math.max 0.5 (Math.min 2.0 rate)
        /\ 0.5 <= playbackRate d <= 2.0)
  /\ (forall k, k <> s -> decks this' !! k = decks this !! k).
Proof.
  intros Hm Hs Bm Bs rate this'. unfold this'.
  rewrite (syncDecks_ok this m s dm ds Hm Hs Bm Bs). cbn [fst snd].
  fold rate. split; [reflexivity|]. split.
  { unfold notify_syncUpdate, with_syncState. cbn [onSyncUpdate].
    destruct (onSyncUpdate _); reflexivity. }
  split.
  { unfold notify_syncUpdate, with_syncState.
    cbn [onSyncUpdate syncUpdates].
    assert (onSyncUpdate (setPlaybackRate this s rate) = onSyncUpdate this)
      as -> by (unfold setPlaybackRate; now destruct (decks this !! s)).
    assert (syncUpdates (setPlaybackRate this s rate) = syncUpdates this)
      as E by (unfold setPlaybackRate; now destruct (decks this !! s)).
    destruct (onSyncUpdate this); cbn [syncUpdates]; rewrite E;
      [reflexivity | now rewrite app_nil_r]. }
  split.
  { rewrite notify_decks.
    destruct (setPlaybackRate_rate this s ds rate Hs)
      as (d & Hd & Hr & _).
    exists d. split; [exact Hd|]. split; [exact Hr|].
    rewrite Hr. apply clamp_bounds. lra. }
  intros k Hne. rewrite notify_decks. apply setPlaybackRate_other.
  congruence.
Qed.

Lemma syncDecks_effects_witness :
  fst (syncDecks
         (Demo.engine [("a"%string, Demo.loaded "a" 180 1);
                       ("b"%string, Demo.loaded "b" 60 1)]) "a" "b")
  = SyncSuccess 180 60 (1 * (180 / 60)).
Proof.
  apply (syncDecks_effects
           (Demo.engine [("a"%string, Demo.loaded "a" 180 1);
                         ("b"%string, Demo.loaded "b" 60 1)])
           "a" "b" (Demo.loaded "a" 180 1) (Demo.loaded "b" 60 1));
    [reflexivity | reflexivity | discriminate | discriminate].
Defined.

(** [syncDecks] is not idempotent: the slave's BPM field is not rescaled by
    the sync, so a second call with the same two decks multiplies the rate
    the first call left on the slave by the same BPM ratio again. *)
Theorem syncDecks_twice (this : t) (m s : string) (dm ds : Deck) :
  m <> s ->
  decks this !! m = Some dm ->
  decks this !! s = Some ds ->
  ~ bpm dm == 0 ->
  ~ bpm ds == 0 ->
  fst (syncDecks (snd (syncDecks this m s)) m s)
  = SyncSuccess (bpm dm) (bpm ds)
      (Math.max 0.5 (Math.min 2.0 (playbackRate ds * (bpm dm / bpm ds)))
       * (bpm dm / bpm ds)).
Proof.
  intros Hne Hm Hs Bm Bs.
  rewrite (syncDecks_ok this m s dm ds Hm Hs Bm Bs). cbn [snd].
  destruct (setPlaybackRate_rate this s ds
              (playbackRate ds * (bpm dm / bpm ds)) Hs)
    as (d & Hd & Hr & _ & Hb & _).
  rewrite (syncDecks_ok _ m s dm d).
  - cbn [fst]. rewrite Hr, Hb. reflexivity.
  - rewrite notify_decks, setPlaybackRate_other by congruence. exact Hm.
  - rewrite notify_decks. exact Hd.
  - exact Bm.
  - rewrite Hb. exact Bs.
Qed.

Lemma syncDecks_twice_witness :
  fst (syncDecks
         (snd (syncDecks
                 (Demo.engine [("a"%string, Demo.loaded "a" 128 1);
                               ("b"%string, Demo.loaded "b" 124 1)])
                 "a" "b")) "a" "b")
  = SyncSuccess 128 124
      (Math.max 0.5 (Math.min 2.0 (1 * (128 / 124))) * (128 / 124)).
Proof.
  apply (syncDecks_twice
           (Demo.engine [("a"%string, Demo.loaded "a" 128 1);
                         ("b"%string, Demo.loaded "b" 124 1)])
           "a" "b" (Demo.loaded "a" 128 1) (Demo.loaded "b" 124 1));
    [discriminate | reflexivity | reflexivity | discriminate | discriminate].
Defined.

(** ** More on timecode detection and DVS control *)

(** With the three random draws in [0, 1), a sample handed out by [detect]
    has a position between 0 and 1000, a speed between 0.9 and 1.1, and a
    direction that is forward exactly when the third draw exceeds 0.5. *)
Theorem detect_sample_ranges (this : TimecodeDetector.t)
    (freqData : list Z) (rnd1 rnd2 rnd3 : Q)
    (sample : TimecodeDetector.TimecodeData) :
  0 <= rnd1 < 1 ->
  0 <= rnd2 < 1 ->
  TimecodeDetector.detect this freqData rnd1 rnd2 rnd3 = Some sample ->
  0 <= TimecodeDetector.position sample <= 1000
  /\ 0.9 <= TimecodeDetector.speed sample <= 1.1
  /\ (TimecodeDetector.direction sample = "forward"%string /\ 0.5 < rnd3
      \/ TimecodeDetector.direction sample = "backward"%string
         /\ rnd3 <= 0.5).
Proof.
  intros H1 H2. unfold TimecodeDetector.detect. intros H.
  destruct (negb (TimecodeDetector.isRunning this)); [discriminate|].
  destruct (gtb _ 50); [|discriminate].
  destruct (TimecodeDetector.onDetected this); [|discriminate].
  injection H as <-.
  cbn [TimecodeDetector.position TimecodeDetector.speed
       TimecodeDetector.direction].
  split; [split; lra|]. split; [split; lra|].
  destruct (gtb rnd3 0.5) eqn:E.
  - left. split; [reflexivity|]. now apply gtb_true.
  - right. split; [reflexivity|].
    destruct (Qlt_le_dec 0.5 rnd3) as [Hlt|Hle]; [|exact Hle].
    apply gtb_true in Hlt. congruence.
Qed.

Lemma detect_sample_ranges_witness :
  0 <= (3 # 10) * 1000 <= 1000
  /\ 0.9 <= 1.0 + ((4 # 10) - 0.5) * 0.2 <= 1.1
  /\ ("backward"%string = "forward"%string /\ 0.5 < (2 # 10)
      \/ "backward"%string = "backward"%string /\ (2 # 10) <= 0.5).
Proof.
  apply (detect_sample_ranges
           {| TimecodeDetector.isRunning := true;
              TimecodeDetector.onDetected := true |}
           [60; 70; 51]%Z (3 # 10) (4 # 10) (2 # 10)
           {| TimecodeDetector.position := (3 # 10) * 1000;
              TimecodeDetector.speed := 1.0 + ((4 # 10) - 0.5) * 0.2;
              TimecodeDetector.direction := "backward";
              TimecodeDetector.quality :=
                Math.min 100 (inject_Z 181 / inject_Z 3 * 2) |}).
  - split; [discriminate | reflexivity].
  - split; [discriminate | reflexivity].
  - reflexivity.
Defined.

(** A forward sample sets the rate of a deck that owns a source to the
    absolute speed clamped into [0.5, 2.0]; for a speed inside that range
    the rate is the speed itself. *)
Theorem applyDVSControl_forward (this : AnalogDeck.t) (deckId : string)
    (deck : Deck) (src : BufferSource)
    (timecodeData : TimecodeDetector.TimecodeData) :
  decks (AnalogDeck.audioSync this) !! deckId = Some deck ->
  source deck = Some src ->
  TimecodeDetector.direction timecodeData = "forward"%string ->
  exists d,
    decks (AnalogDeck.audioSync
             (AnalogDeck.applyDVSControl this deckId timecodeData)) !! deckId
    = Some d
    /\ playbackRate d
       = Math.max 0.5
           (Math.min 2.0
              (Math.abs (TimecodeDetector.speed timecodeData * 1)))
    /\ (0.5 <= TimecodeDetector.speed timecodeData <= 2.0 ->
        playbackRate d == TimecodeDetector.speed timecodeData).
Proof.
  intros Hd Hsrc Hdir. unfold AnalogDeck.applyDVSControl.
  rewrite Hd, Hsrc, Hdir. cbn [String.eqb Ascii.eqb Bool.eqb andb].
  cbn [AnalogDeck.with_audioSync AnalogDeck.audioSync].
  destruct (setPlaybackRate_rate _ deckId deck
              (Math.abs (TimecodeDetector.speed timecodeData * 1)) Hd)
    as (d & Hd' & Hr & _).
  exists d. split; [exact Hd'|]. split; [exact Hr|].
  intros [Hlo Hhi]. rewrite Hr.
  assert (Math.abs (TimecodeDetector.speed timecodeData * 1)
          == TimecodeDetector.speed timecodeData) as E.
  { unfold Math.abs. rewrite Qabs_pos; [ring | lra]. }
  rewrite clamp_inside; [exact E|]. rewrite E. split; lra.
Qed.

Lemma applyDVSControl_forward_witness :
  exists d,
    decks (AnalogDeck.audioSync
             (AnalogDeck.applyDVSControl
                (Demo.hardware [("a"%string, Demo.playing "a" 128 1)] [])
                "a"
                {| TimecodeDetector.position := 500;
                   TimecodeDetector.speed := 11 # 10;
                   TimecodeDetector.direction := "forward";
                   TimecodeDetector.quality := 100 |})) !! "a"%string
    = Some d
    /\ playbackRate d
       = Math.max 0.5 (Math.min 2.0 (Math.abs ((11 # 10) * 1)))
    /\ (0.5 <= 11 # 10 <= 2.0 -> playbackRate d == 11 # 10).
Proof.
  apply (applyDVSControl_forward
           (Demo.hardware [("a"%string, Demo.playing "a" 128 1)] []) "a"
           (Demo.playing "a" 128 1)
           {| source_buffer := Demo.track; source_playbackRate := 1;
              source_when := 0; source_offset := 0 |});
    reflexivity.
Defined.

(** Once a deck is paused or stopped it owns no source, and DVS samples,
    forward or backward, no longer change anything. *)
Theorem applyDVSControl_after_pause (now : Q) (this : AnalogDeck.t)
    (deckId : string) (deck : Deck)
    (timecodeData : TimecodeDetector.TimecodeData) :
  decks (AnalogDeck.audioSync this) !! deckId = Some deck ->
  isPlaying deck = true ->
  AnalogDeck.applyDVSControl
    (AnalogDeck.with_audioSync
       (snd (pause now (AnalogDeck.audioSync this) deckId)) this)
    deckId timecodeData
  = AnalogDeck.with_audioSync
      (snd (pause now (AnalogDeck.audioSync this) deckId)) this
  /\ AnalogDeck.applyDVSControl
       (AnalogDeck.with_audioSync
          (snd (stop (AnalogDeck.audioSync this) deckId)) this)
       deckId timecodeData
     = AnalogDeck.with_audioSync
         (snd (stop (AnalogDeck.audioSync this) deckId)) this.
Proof.
  intros Hd Hp. split.
  - rewrite (pause_playing now _ deckId deck Hd Hp). cbn [snd].
    unfold AnalogDeck.applyDVSControl.
    cbn [AnalogDeck.audioSync AnalogDeck.with_audioSync].
    now rewrite put_deck_lookup.
  - unfold stop. rewrite Hd. cbn [snd].
    unfold AnalogDeck.applyDVSControl.
    cbn [AnalogDeck.audioSync AnalogDeck.with_audioSync].
    now rewrite put_deck_lookup.
Qed.

Lemma applyDVSControl_after_pause_witness :
  AnalogDeck.applyDVSControl
    (AnalogDeck.with_audioSync
       (snd (pause 3
               (AnalogDeck.audioSync
                  (Demo.hardware [("a"%string, Demo.playing "a" 128 1)] []))
               "a"))
       (Demo.hardware [("a"%string, Demo.playing "a" 128 1)] []))
    "a"
    {| TimecodeDetector.position := 500; TimecodeDetector.speed := 1;
       TimecodeDetector.direction := "backward";
       TimecodeDetector.quality := 100 |}
  = AnalogDeck.with_audioSync
      (snd (pause 3
              (AnalogDeck.audioSync
                 (Demo.hardware [("a"%string, Demo.playing "a" 128 1)] []))
              "a"))
      (Demo.hardware [("a"%string, Demo.playing "a" 128 1)] []).
Proof.
  apply (applyDVSControl_after_pause 3
           (Demo.hardware [("a"%string, Demo.playing "a" 128 1)] []) "a"
           (Demo.playing "a" 128 1)
           {| TimecodeDetector.position := 500; TimecodeDetector.speed := 1;
              TimecodeDetector.direction := "backward";
              TimecodeDetector.quality := 100 |});
    reflexivity.
Defined.

(** ** More on MIDI dispatch *)

(** Dispatch only ever writes the [audioSync] field of the hardware
    object. *)
Lemma applyMIDIMapping_frame (now : Q) (this : AnalogDeck.t)
    (midiEvent : AnalogDeck.MIDIEvent) :
  exists s,
    AnalogDeck.applyMIDIMapping now this midiEvent
    = AnalogDeck.with_audioSync s this.
Proof.
  assert (this = AnalogDeck.with_audioSync (AnalogDeck.audioSync this) this)
    as Hid by (destruct this; reflexivity).
  unfold AnalogDeck.applyMIDIMapping.
  destruct (AnalogDeck.midiMappings this !! _) as [mapping|]; [|eauto].
  unfold AnalogDeck.call_on_deck.
  repeat case_match; eauto.
Qed.

(** A raw message whose status byte is [16 * cmd + ch], with a command
    nibble from 8 to 14 and a channel from 0 to 15, and whose second data
    byte is a 7-bit value, is delivered to [onMIDIMessage] as one event, after
    the mapping was applied: it carries the name of the command, which is
    never [unknown], the channel, the note, and a value in [0, 1]. *)
Theorem handleMIDIMessage_decodes (now : Q) (this : AnalogDeck.t)
    (inputId : string) (cmd ch data1 data2 : Z) (timeStamp : Q) :
  (8 <= cmd <= 14)%Z ->
  (0 <= ch <= 15)%Z ->
  (0 <= data2 <= 127)%Z ->
  AnalogDeck.onMIDIMessage this = true ->
  exists ev,
    AnalogDeck.midiMessages
      (AnalogDeck.handleMIDIMessage now this inputId (16 * cmd + ch)
         data1 data2 timeStamp)
    = AnalogDeck.midiMessages this ++ [ev]
    /\ AnalogDeck.audioSync
         (AnalogDeck.handleMIDIMessage now this inputId (16 * cmd + ch)
            data1 data2 timeStamp)
       = AnalogDeck.audioSync (AnalogDeck.applyMIDIMapping now this ev)
    /\ AnalogDeck.inputId ev = inputId
    /\ AnalogDeck.command ev = AnalogDeck.getMIDICommand cmd
    /\ AnalogDeck.command ev <> "unknown"%string
    /\ AnalogDeck.channel ev = ch
    /\ AnalogDeck.note ev = data1
    /\ 0 <= AnalogDeck.value ev <= 1.
Proof.
  intros Hcmd Hch Hd2 Hon. unfold AnalogDeck.handleMIDIMessage.
  assert (Z.shiftr (16 * cmd + ch) 4 = cmd) as ->.
  { rewrite Z.shiftr_div_pow2 by lia. change (2 ^ 4)%Z with 16%Z.
    symmetry. apply (Z.div_unique _ _ _ ch); lia. }
  assert (Z.land (16 * cmd + ch) 15 = ch) as ->.
  { change 15%Z with (Z.ones 4). rewrite Z.land_ones by lia.
    change (2 ^ 4)%Z with 16%Z. symmetry.
    apply (Z.mod_unique _ _ cmd); lia. }
  set (ev := {| AnalogDeck.inputId := inputId;
                AnalogDeck.command := AnalogDeck.getMIDICommand cmd;
                AnalogDeck.channel := ch; AnalogDeck.note := data1;
                AnalogDeck.velocity := data2;
                AnalogDeck.value := inject_Z data2 / 127;
                AnalogDeck.timestamp := timeStamp |}).
  destruct (applyMIDIMapping_frame now this ev) as (s & Hs).
  rewrite Hs.
  cbn [AnalogDeck.onMIDIMessage AnalogDeck.with_audioSync
       AnalogDeck.midiMessages AnalogDeck.audioSync].
  rewrite Hon. exists ev.
  cbn [AnalogDeck.midiMessages AnalogDeck.audioSync AnalogDeck.inputId
       AnalogDeck.command AnalogDeck.channel AnalogDeck.note
       AnalogDeck.value ev].
  repeat split; try reflexivity.
  - now rewrite Hs.
  - assert (cmd = 8 \/ cmd = 9 \/ cmd = 10 \/ cmd = 11 \/ cmd = 12
            \/ cmd = 13 \/ cmd = 14)%Z as Hc by lia.
    destruct Hc as [-> | [-> | [-> | [-> | [-> | [-> | ->]]]]]];
      discriminate.
  - apply Qle_shift_div_l; [reflexivity|].
    rewrite Qmult_0_l. change 0 with (inject_Z 0). rewrite <- Zle_Qle. lia.
  - apply Qle_shift_div_r; [reflexivity|].
    rewrite Qmult_1_l. change 127 with (inject_Z 127).
    rewrite <- Zle_Qle. lia.
Qed.

Lemma handleMIDIMessage_decodes_witness :
  exists ev,
    AnalogDeck.midiMessages
      (AnalogDeck.handleMIDIMessage 0
         (Demo.hardware [("a"%string, Demo.loaded "a" 128 1)] []) "in1"
         (16 * 9 + 2) 11 127 0)
    = AnalogDeck.midiMessages
        (Demo.hardware [("a"%string, Demo.loaded "a" 128 1)] []) ++ [ev]
    /\ AnalogDeck.audioSync
         (AnalogDeck.handleMIDIMessage 0
            (Demo.hardware [("a"%string, Demo.loaded "a" 128 1)] []) "in1"
            (16 * 9 + 2) 11 127 0)
       = AnalogDeck.audioSync
           (AnalogDeck.applyMIDIMapping 0
              (Demo.hardware [("a"%string, Demo.loaded "a" 128 1)] []) ev)
    /\ AnalogDeck.inputId ev = "in1"%string
    /\ AnalogDeck.command ev = AnalogDeck.getMIDICommand 9
    /\ AnalogDeck.command ev <> "unknown"%string
    /\ AnalogDeck.channel ev = 2%Z
    /\ AnalogDeck.note ev = 11%Z
    /\ 0 <= AnalogDeck.value ev <= 1.
Proof.
  apply (handleMIDIMessage_decodes 0
           (Demo.hardware [("a"%string, Demo.loaded "a" 128 1)] []) "in1"
           9 2 11 127 0); [lia | lia | lia | reflexivity].
Defined.

(** A [pitch] mapping turns a normalized value in [0, 1] into the rate
    [1 + (value - 0.5) * 2 * 0.16], between 0.84 and 1.16, and that rate is
    stored on the target deck as it is: the clamp of [setPlaybackRate] does
    not bite. *)
Theorem midi_pitch_rate (now : Q) (this : AnalogDeck.t)
    (midiEvent : AnalogDeck.MIDIEvent) (mapping : AnalogDeck.MIDIMapping)
    (k : string) (deck : Deck) :
  AnalogDeck.midiMappings this
    !! AnalogDeck.mapping_key (AnalogDeck.inputId midiEvent)
                              (AnalogDeck.note midiEvent)
  = Some mapping ->
  AnalogDeck.action mapping = "pitch"%string ->
  AnalogDeck.deckId mapping = Some k ->
  decks (AnalogDeck.audioSync this) !! k = Some deck ->
  0 <= AnalogDeck.value midiEvent <= 1 ->
  exists d,
    decks (AnalogDeck.audioSync
             (AnalogDeck.applyMIDIMapping now this midiEvent)) !! k = Some d
    /\ playbackRate d == 1 + (AnalogDeck.value midiEvent - 0.5) * 2 * 0.16
    /\ 0.84 <= playbackRate d <= 1.16.
Proof.
  intros Hmap Hact Hdeck Hd Hv.
  unfold AnalogDeck.applyMIDIMapping. rewrite Hmap, Hact.
  cbv beta iota zeta. unfold AnalogDeck.call_on_deck. rewrite Hdeck.
  cbn [AnalogDeck.audioSync AnalogDeck.with_audioSync].
  set (r := 1 + (AnalogDeck.value midiEvent - 0.5) * 2 * 0.16).
  destruct (setPlaybackRate_rate _ k deck r Hd) as (d & Hd' & Hr & _).
  assert (0.84 <= r <= 1.16) as Hrange by (unfold r; split; lra).
  exists d. split; [exact Hd'|]. rewrite Hr.
  rewrite clamp_inside by lra. split; [reflexivity|exact Hrange].
Qed.

Lemma midi_pitch_rate_witness :
  exists d,
    decks (AnalogDeck.audioSync
             (AnalogDeck.applyMIDIMapping 0
                (Demo.hardware [("a"%string, Demo.loaded "a" 128 1)]
                   [{| AnalogDeck.map_inputId := Some "in1"%string;
                       AnalogDeck.map_note := 20;
                       AnalogDeck.action := "pitch";
                       AnalogDeck.deckId := Some "a"%string;
                       AnalogDeck.parameter := None |}])
                {| AnalogDeck.inputId := "in1";
                   AnalogDeck.command := "controlchange";
                   AnalogDeck.channel := 0; AnalogDeck.note := 20;
                   AnalogDeck.velocity := 0; AnalogDeck.value := 0;
                   AnalogDeck.timestamp := 0 |})) !! "a"%string = Some d
    /\ playbackRate d == 1 + (0 - 0.5) * 2 * 0.16
    /\ 0.84 <= playbackRate d <= 1.16.
Proof.
  apply (midi_pitch_rate 0
           (Demo.hardware [("a"%string, Demo.loaded "a" 128 1)]
              [{| AnalogDeck.map_inputId := Some "in1"%string;
                  AnalogDeck.map_note := 20;
                  AnalogDeck.action := "pitch";
                  AnalogDeck.deckId := Some "a"%string;
                  AnalogDeck.parameter := None |}])
           {| AnalogDeck.inputId := "in1";
              AnalogDeck.command := "controlchange";
              AnalogDeck.channel := 0; AnalogDeck.note := 20;
              AnalogDeck.velocity := 0; AnalogDeck.value := 0;
              AnalogDeck.timestamp := 0 |}
           {| AnalogDeck.map_inputId := Some "in1"%string;
              AnalogDeck.map_note := 20;
              AnalogDeck.action := "pitch";
              AnalogDeck.deckId := Some "a"%string;
              AnalogDeck.parameter := None |}
           "a" (Demo.loaded "a" 128 1)).
  - vm_compute. reflexivity.
  - reflexivity.
  - reflexivity.
  - reflexivity.
  - split; discriminate.
Defined.

(** A mapped event changes nothing when its action is [crossfader], [cue]
    or [hotcue], and when its action is [play] or [pause] but the message is
    not a note-on. *)
Theorem midi_no_effect (now : Q) (this : AnalogDeck.t)
    (midiEvent : AnalogDeck.MIDIEvent) (mapping : AnalogDeck.MIDIMapping) :
  AnalogDeck.midiMappings this
    !! AnalogDeck.mapping_key (AnalogDeck.inputId midiEvent)
                              (AnalogDeck.note midiEvent)
  = Some mapping ->
  AnalogDeck.action mapping = "crossfader"%string
  \/ AnalogDeck.action mapping = "cue"%string
  \/ AnalogDeck.action mapping = "hotcue"%string
  \/ ((AnalogDeck.action mapping = "play"%string
       \/ AnalogDeck.action mapping = "pause"%string)
      /\ AnalogDeck.command midiEvent <> "noteon"%string) ->
  AnalogDeck.applyMIDIMapping now this midiEvent = this.
Proof.
  intros Hmap Hact. unfold AnalogDeck.applyMIDIMapping. rewrite Hmap.
  destruct Hact as [-> | [-> | [-> | [[-> | ->] Hc]]]];
    cbv beta iota zeta; try reflexivity;
    apply String.eqb_neq in Hc; now rewrite Hc.
Qed.

Lemma midi_no_effect_witness :
  AnalogDeck.applyMIDIMapping 0
    (Demo.hardware [("a"%string, Demo.loaded "a" 128 1)]
       [{| AnalogDeck.map_inputId := Some "in1"%string;
           AnalogDeck.map_note := 11;
           AnalogDeck.action := "play";
           AnalogDeck.deckId := Some "a"%string;
           AnalogDeck.parameter := None |}])
    {| AnalogDeck.inputId := "in1"; AnalogDeck.command := "noteoff";
       AnalogDeck.channel := 0; AnalogDeck.note := 11;
       AnalogDeck.velocity := 0; AnalogDeck.value := 0;
       AnalogDeck.timestamp := 0 |}
  = Demo.hardware [("a"%string, Demo.loaded "a" 128 1)]
      [{| AnalogDeck.map_inputId := Some "in1"%string;
          AnalogDeck.map_note := 11;
          AnalogDeck.action := "play";
          AnalogDeck.deckId := Some "a"%string;
          AnalogDeck.parameter := None |}].
Proof.
  apply (midi_no_effect 0
           (Demo.hardware [("a"%string, Demo.loaded "a" 128 1)]
              [{| AnalogDeck.map_inputId := Some "in1"%string;
                  AnalogDeck.map_note := 11;
                  AnalogDeck.action := "play";
                  AnalogDeck.deckId := Some "a"%string;
                  AnalogDeck.parameter := None |}])
           {| AnalogDeck.inputId := "in1"; AnalogDeck.command := "noteoff";
              AnalogDeck.channel := 0; AnalogDeck.note := 11;
              AnalogDeck.velocity := 0; AnalogDeck.value := 0;
              AnalogDeck.timestamp := 0 |}
           {| AnalogDeck.map_inputId := Some "in1"%string;
              AnalogDeck.map_note := 11;
              AnalogDeck.action := "play";
              AnalogDeck.deckId := Some "a"%string;
              AnalogDeck.parameter := None |}).
  - vm_compute. reflexivity.
  - right. right. right. split; [left; reflexivity | discriminate].
Defined.

(** The mapping table is keyed by input id and note: of two mappings added
    under the same key the later one is the one found, and after
    [removeMIDIMapping] an event with that input id and note changes
    nothing. *)
Theorem midi_mapping_table (now : Q) (this : AnalogDeck.t)
    (mapping1 mapping2 : AnalogDeck.MIDIMapping)
    (midiEvent : AnalogDeck.MIDIEvent) :
  AnalogDeck.map_inputId mapping1 = Some (AnalogDeck.inputId midiEvent) ->
  AnalogDeck.map_inputId mapping2 = Some (AnalogDeck.inputId midiEvent) ->
  AnalogDeck.map_note mapping1 = AnalogDeck.note midiEvent ->
  AnalogDeck.map_note mapping2 = AnalogDeck.note midiEvent ->
  AnalogDeck.midiMappings
    (AnalogDeck.addMIDIMapping (AnalogDeck.addMIDIMapping this mapping1)
       mapping2)
    !! AnalogDeck.mapping_key (AnalogDeck.inputId midiEvent)
                              (AnalogDeck.note midiEvent)
  = Some mapping2
  /\ AnalogDeck.applyMIDIMapping now
       (AnalogDeck.removeMIDIMapping
          (AnalogDeck.addMIDIMapping this mapping1)
          (AnalogDeck.inputId midiEvent) (AnalogDeck.note midiEvent))
       midiEvent
     = AnalogDeck.removeMIDIMapping
         (AnalogDeck.addMIDIMapping this mapping1)
         (AnalogDeck.inputId midiEvent) (AnalogDeck.note midiEvent).
Proof.
  intros Hi1 Hi2 Hn1 Hn2. split.
  - unfold AnalogDeck.addMIDIMapping at 1. rewrite Hi2, Hn2.
    cbn [AnalogDeck.template_string default AnalogDeck.midiMappings
         AnalogDeck.with_midiMappings].
    apply lookup_insert_eq.
  - unfold AnalogDeck.applyMIDIMapping, AnalogDeck.removeMIDIMapping.
    cbn [AnalogDeck.midiMappings AnalogDeck.with_midiMappings].
    now rewrite lookup_delete_eq.
Qed.

Lemma midi_mapping_table_witness :
  AnalogDeck.midiMappings
    (AnalogDeck.addMIDIMapping
       (AnalogDeck.addMIDIMapping
          (Demo.hardware [("a"%string, Demo.loaded "a" 128 1)] [])
          {| AnalogDeck.map_inputId := Some "in1"%string;
             AnalogDeck.map_note := 11; AnalogDeck.action := "play";
             AnalogDeck.deckId := Some "a"%string;
             AnalogDeck.parameter := None |})
       {| AnalogDeck.map_inputId := Some "in1"%string;
          AnalogDeck.map_note := 11; AnalogDeck.action := "pause";
          AnalogDeck.deckId := Some "a"%string;
          AnalogDeck.parameter := None |})
    !! AnalogDeck.mapping_key "in1" 11
  = Some {| AnalogDeck.map_inputId := Some "in1"%string;
            AnalogDeck.map_note := 11; AnalogDeck.action := "pause";
            AnalogDeck.deckId := Some "a"%string;
            AnalogDeck.parameter := None |}.
Proof.
  apply (midi_mapping_table 0
           (Demo.hardware [("a"%string, Demo.loaded "a" 128 1)] [])
           {| AnalogDeck.map_inputId := Some "in1"%string;
              AnalogDeck.map_note := 11; AnalogDeck.action := "play";
              AnalogDeck.deckId := Some "a"%string;
              AnalogDeck.parameter := None |}
           {| AnalogDeck.map_inputId := Some "in1"%string;
              AnalogDeck.map_note := 11; AnalogDeck.action := "pause";
              AnalogDeck.deckId := Some "a"%string;
              AnalogDeck.parameter := None |}
           {| AnalogDeck.inputId := "in1"; AnalogDeck.command := "noteon";
              AnalogDeck.channel := 0; AnalogDeck.note := 11;
              AnalogDeck.velocity := 127; AnalogDeck.value := 1;
              AnalogDeck.timestamp := 0 |});
    reflexivity.
Defined.

(** ** More on BPM detection *)

(** The low-pass filter returns as many samples as it is given. *)
Theorem lowPassFilter_length (fround : Q -> Q) (data : list Q)
    (sampleRate cutoffFreq : Q) :
  length (lowPassFilter fround data sampleRate cutoffFreq) = length data.
Proof.
  unfold lowPassFilter. destruct data as [|x0 rest]; [reflexivity|].
  cbn [length]. f_equal.
  generalize (fround x0) as prev.
  generalize (1 / sampleRate
              / (1 / (2 * Math.PI * cutoffFreq) + 1 / sampleRate)) as alpha.
  induction rest as [|x rest IH]; intros alpha prev; [reflexivity|].
  cbn [lowPass_loop length]. f_equal. apply IH.
Qed.

Lemma spaced_snoc (d : Z) (idx : list Z) (i : Z) :
  spaced d idx ->
  Forall (fun a => (a < i)%Z /\ (a + d <= i)%Z) idx ->
  spaced d (idx ++ [i]).
Proof.
  intros Hsp Hall p q a b Hpq Hp Hq.
  apply lookup_snoc_Some in Hq as [[Hlt Hq]|[-> <-]].
  - apply lookup_snoc_Some in Hp as [[_ Hp]|[-> _]]; [|lia].
    exact (Hsp p q a b Hpq Hp Hq).
  - apply lookup_snoc_Some in Hp as [[_ Hp]|[-> _]]; [|lia].
    rewrite Forall_forall in Hall. apply Hall.
    apply list_elem_of_lookup. eauto.
Qed.

Lemma detectPeaks_loop (data : list Q) (sampleRate threshold : Q) (d : Z)
    (n : nat) :
  forall (s : nat) (idx : list Z) (last : Z),
    (1 <= s)%nat ->
    (n <> 0%nat -> (s + n <= length data - 1)%nat) ->
    Forall (is_peak data threshold) idx ->
    Forall (fun a => (a <= last)%Z /\ (a < Z.of_nat s)%Z) idx ->
    spaced d idx ->
    exists idx' last',
      fold_left (detectPeaks_body data sampleRate threshold d)
        (map Z.of_nat (seq s n))
        (map (fun i => inject_Z i / sampleRate) idx, last)
      = (map (fun i => inject_Z i / sampleRate) idx', last')
      /\ Forall (is_peak data threshold) idx'
      /\ spaced d idx'.
Proof.
  induction n as [|n IH]; intros s idx last Hs Hn Hpk Hlast Hsp.
  - exists idx, last. split; [reflexivity | split; assumption].
  - cbn [seq map fold_left]. specialize (Hn ltac:(discriminate)).
    unfold detectPeaks_body at 2.
    destruct (gtb (at_index data (Z.of_nat s)) threshold
              && gtb (at_index data (Z.of_nat s))
                     (at_index data (Z.of_nat s - 1))
              && gtb (at_index data (Z.of_nat s))
                     (at_index data (Z.of_nat s + 1))
              && (d <=? Z.of_nat s - last)%Z) eqn:E.
    + apply andb_prop in E as [E E4]. apply andb_prop in E as [E E3].
      apply andb_prop in E as [E1 E2].
      apply gtb_true in E1, E2, E3. apply Z.leb_le in E4.
      replace (map (fun i => inject_Z i / sampleRate) idx
               ++ [inject_Z (Z.of_nat s) / sampleRate])
        with (map (fun i => inject_Z i / sampleRate)
                  (idx ++ [Z.of_nat s]))
        by (rewrite map_app; reflexivity).
      apply IH.
      * lia.
      * intros _. lia.
      * apply Forall_app. split; [exact Hpk|].
        constructor; [|constructor]. unfold is_peak.
        repeat split; try assumption; lia.
      * apply Forall_app. split.
        -- eapply Forall_impl; [exact Hlast|]. cbn. intros a [? ?]. lia.
        -- constructor; [lia|constructor].
      * apply spaced_snoc; [exact Hsp|].
        eapply Forall_impl; [exact Hlast|]. cbn. intros a [? ?]. lia.
    + apply IH.
      * lia.
      * intros _. lia.
      * exact Hpk.
      * eapply Forall_impl; [exact Hlast|]. cbn. intros a [? ?]. lia.
      * exact Hsp.
Qed.

(** The peaks returned by [detectPeaks] are the times [i / sampleRate] of
    sample indices [i] that are inner samples above the threshold and above
    both neighbours; the indices increase, and any two of them are at least
    [floor(sampleRate * 0.3)] samples apart. *)
Theorem detectPeaks_spacing (Math_sqrt : Q -> Q) (data : list Q)
    (sampleRate : Q) :
  exists idx,
    detectPeaks Math_sqrt data sampleRate
    = map (fun i => inject_Z i / sampleRate) idx
    /\ Forall (is_peak data (calculateThreshold Math_sqrt data)) idx
    /\ spaced (Math.floor (sampleRate * 0.3)) idx.
Proof.
  unfold detectPeaks.
  destruct (detectPeaks_loop data sampleRate
              (calculateThreshold Math_sqrt data)
              (Math.floor (sampleRate * 0.3)) (length data - 2) 1 []
              (- Math.floor (sampleRate * 0.3))%Z)
    as (idx & last & E & Hpk & Hsp).
  - lia.
  - intros Hn. lia.
  - constructor.
  - constructor.
  - intros p q a b _ Hp. discriminate Hp.
  - cbn [map] in E. rewrite E. cbn [fst]. exists idx.
    split; [reflexivity|]. split; [exact Hpk|exact Hsp].
Qed.

(** ** Controller presets *)

Lemma append_empty (y : string) : "" +:+ y = y.
Proof. reflexivity. Qed.

Lemma append_String (c : Ascii.ascii) (x y : string) :
  String c x +:+ y = String c (x +:+ y).
Proof. reflexivity. Qed.

Lemma has_dash_append (x y : string) :
  AnalogDeck.has_dash (x +:+ "-" +:+ y) = true.
Proof.
  induction x as [|c x IH].
  - rewrite append_empty, append_String. reflexivity.
  - rewrite append_String. cbn [AnalogDeck.has_dash]. rewrite IH.
    apply orb_true_r.
Qed.

Lemma mapping_key_inj (i j a b : string) :
  AnalogDeck.has_dash a = false ->
  AnalogDeck.has_dash b = false ->
  i +:+ "-" +:+ a = j +:+ "-" +:+ b ->
  i = j.
Proof.
  intros Ha Hb. revert j. induction i as [|c i IH]; intros [|c' j] E.
  - reflexivity.
  - rewrite append_empty, (append_String c' j) in E.
    rewrite (append_String _ "" a), append_empty in E.
    injection E as _ E. rewrite E, has_dash_append in Ha. discriminate Ha.
  - rewrite append_empty, (append_String c i) in E.
    rewrite (append_String _ "" b), append_empty in E.
    injection E as _ E. rewrite <- E, has_dash_append in Hb.
    discriminate Hb.
  - rewrite (append_String c i), (append_String c' j) in E.
    injection E as -> E. f_equal. now apply IH.
Qed.

Lemma pretty_no_dash (n : Z) :
  (0 <= n <= 127)%Z -> AnalogDeck.has_dash (pretty n) = false.
Proof.
  intros Hn.
  assert (forallb (fun k => negb (AnalogDeck.has_dash (pretty (Z.of_nat k))))
            (seq 0 128) = true) as H by (vm_compute; reflexivity).
  rewrite forallb_forall in H. specialize (H (Z.to_nat n)).
  rewrite Z2Nat.id in H by lia. apply negb_true_iff, H, in_seq. lia.
Qed.

Lemma preset_entries (controllerType : string)
    (mappings : list AnalogDeck.MIDIMapping) :
  AnalogDeck.getControllerMappings controllerType
  = AnalogDeck.Mappings mappings ->
  Forall (fun m => AnalogDeck.map_inputId m = None
                   /\ (0 <= AnalogDeck.map_note m <= 127)%Z) mappings.
Proof.
  assert (Forall (fun m => AnalogDeck.map_inputId m = None
                           /\ (0 <= AnalogDeck.map_note m <= 127)%Z)
            AnalogDeck.pioneerDDJ) as Hp.
  { unfold AnalogDeck.pioneerDDJ.
    repeat (constructor; [split; [reflexivity | cbn; lia]|]). constructor. }
  unfold AnalogDeck.getControllerMappings, AnalogDeck.mappingPresets,
    AnalogDeck.own_property.
  repeat (destruct (String.eqb controllerType _);
          [intros [= <-]; first [exact Hp | constructor] |]).
  destruct (existsb _ _); intros [= <-]. constructor.
Qed.

Lemma load_lookup_other (ms : list AnalogDeck.MIDIMapping) (key : string) :
  forall this,
    Forall (fun m =>
              AnalogDeck.mapping_key
                (AnalogDeck.template_string (AnalogDeck.map_inputId m))
                (AnalogDeck.map_note m) <> key) ms ->
    AnalogDeck.midiMappings (foldl AnalogDeck.addMIDIMapping this ms) !! key
    = AnalogDeck.midiMappings this !! key.
Proof.
  induction ms as [|m ms IH]; intros this Hall; [reflexivity|].
  inversion Hall as [|? ? Hm Hms]; subst. cbn [foldl].
  rewrite (IH _ Hms). unfold AnalogDeck.addMIDIMapping.
  cbn [AnalogDeck.midiMappings AnalogDeck.with_midiMappings].
  now apply lookup_insert_ne.
Qed.

(** The preset entries carry no [inputId], so [loadControllerMapping]
    stores them under keys that start with [undefined-].  Take an event
    from an input whose id is not the string [undefined], with a 7-bit note
    and no mapping of its own.  Whatever the controller type, either the
    load returns and the event then finds no mapping and changes nothing, or
    the type names a member inherited from [Object.prototype] and the load
    throws a [TypeError]. *)
Theorem presets_never_match (now : Q) (this : AnalogDeck.t)
    (controllerType : string) (midiEvent : AnalogDeck.MIDIEvent) :
  AnalogDeck.midiMappings this
    !! AnalogDeck.mapping_key (AnalogDeck.inputId midiEvent)
                              (AnalogDeck.note midiEvent) = None ->
  AnalogDeck.inputId midiEvent <> "undefined"%string ->
  (0 <= AnalogDeck.note midiEvent <= 127)%Z ->
  match AnalogDeck.loadControllerMapping this controllerType with
  | Return this' =>
    AnalogDeck.applyMIDIMapping now this' midiEvent = this'
  | Throw e =>
    e = TypeError
    /\ existsb (String.eqb controllerType) AnalogDeck.Object_prototype
       = true
  end.
Proof.
  intros Hnone Hid Hnote. unfold AnalogDeck.loadControllerMapping.
  destruct (AnalogDeck.getControllerMappings controllerType)
    as [mappings|name] eqn:Hget.
  - unfold AnalogDeck.applyMIDIMapping.
    rewrite load_lookup_other; [now rewrite Hnone|].
    eapply Forall_impl; [apply (preset_entries controllerType), Hget|].
    intros m [Hin Hn] E. rewrite Hin in E.
    cbn [AnalogDeck.template_string default] in E.
    unfold AnalogDeck.mapping_key in E.
    apply mapping_key_inj in E; [congruence| |]; now apply pretty_no_dash.
  - split; [reflexivity|]. unfold AnalogDeck.getControllerMappings in Hget.
    destruct (AnalogDeck.own_property _ _); [discriminate|].
    destruct (existsb _ _); [reflexivity|discriminate].
Qed.

Lemma presets_never_match_witness :
  match AnalogDeck.loadControllerMapping
          (Demo.hardware [("a"%string, Demo.loaded "a" 128 1)] [])
          "pioneer-ddj" with
  | Return this' =>
    AnalogDeck.applyMIDIMapping 0 this'
      {| AnalogDeck.inputId := "input-0"; AnalogDeck.command := "noteon";
         AnalogDeck.channel := 0; AnalogDeck.note := 11;
         AnalogDeck.velocity := 127; AnalogDeck.value := 1;
         AnalogDeck.timestamp := 0 |} = this'
  | Throw e =>
    e = TypeError
    /\ existsb (String.eqb "pioneer-ddj") AnalogDeck.Object_prototype = true
  end.
Proof.
  apply (presets_never_match 0
           (Demo.hardware [("a"%string, Demo.loaded "a" 128 1)] [])
           "pioneer-ddj"
           {| AnalogDeck.inputId := "input-0";
              AnalogDeck.command := "noteon";
              AnalogDeck.channel := 0; AnalogDeck.note := 11;
              AnalogDeck.velocity := 127; AnalogDeck.value := 1;
              AnalogDeck.timestamp := 0 |}).
  - reflexivity.
  - discriminate.
  - cbn. lia.
Defined.

(** ** Restarting a deck that plays *)

(** [play] without offset on a deck that is already playing does not go on
    from the current position: the start offset is read from the stored
    [currentTime], which holds the position of the last pause or seek (0
    after a stop or on a fresh deck), so the deck restarts from there. *)
Theorem play_while_playing (now : Q) (this : t) (deckId : string)
    (deck : Deck) (buf : AudioBuffer) :
  decks this !! deckId = Some deck ->
  buffer deck = Some buf ->
  isPlaying deck = true ->
  getCurrentTime now this deckId = now - startTime deck
  /\ fst (play now this deckId None) = true
  /\ getCurrentTime now (snd (play now this deckId None)) deckId
     == currentTime deck
  /\ exists d src,
       decks (snd (play now this deckId None)) !! deckId = Some d
       /\ source d = Some src
       /\ source_when src = now
       /\ source_offset src == currentTime deck.
Proof.
  intros H Hb Hp. split.
  { unfold getCurrentTime. now rewrite H, Hp. }
  rewrite (play_loaded now this deckId deck buf None H Hb).
  cbn [fst snd default]. rewrite (js_or_zero 0) by reflexivity.
  assert (js_or (currentTime deck) 0 == currentTime deck) as E.
  { destruct (Qeq_dec (currentTime deck) 0) as [E|E].
    - rewrite (js_or_zero _ _ E). symmetry. exact E.
    - now rewrite (js_or_nonzero _ _ E). }
  split; [reflexivity|]. split.
  - unfold getCurrentTime. rewrite put_deck_lookup.
    cbn [isPlaying startTime with_startTime with_isPlaying].
    rewrite E. ring.
  - do 2 eexists. split; [apply put_deck_lookup|]. cbn.
    split; [reflexivity|]. split; [reflexivity|exact E].
Qed.

Lemma play_while_playing_witness :
  getCurrentTime 30
    (snd (play 30 (Demo.engine [("a"%string, Demo.playing "a" 128 1)])
            "a" None)) "a"
  == currentTime (Demo.playing "a" 128 1).
Proof.
  apply (play_while_playing 30
           (Demo.engine [("a"%string, Demo.playing "a" 128 1)]) "a"
           (Demo.playing "a" 128 1) Demo.track);
    reflexivity.
Defined.

(** ** The [ended] event of a replaced source *)

(** [play] on a deck whose source still has samples to play stops that
    source, and the [ended] event this queues reaches the handler when the
    deck is already marked as playing the new source: the handler marks the
    deck as not playing and puts its position at 0.  So the call returns
    [true], but in any later task [pause] returns [false] and
    [getCurrentTime] reads 0. *)
Theorem play_replaced_source_resets (s : Session.t) (d : string)
    (deck : Deck) (buf : AudioBuffer) (src : BufferSource)
    (offset : option Q) (t0 t1 : Q) :
  Session.pendingEnded s = [] ->
  decks (Session.engine s) !! d = Some deck ->
  buffer deck = Some buf ->
  source deck = Some src ->
  Session.ran_out t0 deck = false ->
  fst (Session.play t0 s d offset) = true
  /\ Session.pendingEnded (snd (Session.play t0 s d offset)) = [d]
  /\ fst (Session.pause t1 (snd (Session.play t0 s d offset)) d) = false
  /\ Session.getCurrentTime t1 (snd (Session.play t0 s d offset)) d = 0.
Proof.
  intros Hq H Hb Hsrc Hlive.
  pose proof (settle_lookup_live t0 s d deck Hq H Hlive) as H0.
  pose proof (play_loaded t0 _ d deck buf offset H0 Hb) as E1.
  set (s1 := snd (Session.play t0 s d offset)).
  assert (Session.pendingEnded s1 = [d]) as Hq1.
  { unfold s1, Session.play. cbn [snd Session.pendingEnded].
    now rewrite H0, Hb, Hsrc, Hlive. }
  match type of E1 with
  | _ = (_, put_deck _ _ ?x) =>
    assert (Hs1 : decks (Session.engine s1) !! d = Some x)
      by (unfold s1, Session.play; cbn [snd Session.engine];
          rewrite E1; apply put_deck_lookup);
    assert (Hl1 : decks (Session.settle t1 s1) !! d = Some (ended x))
  end.
  { rewrite settle_lookup, Hq1. cbn [foldl]. rewrite onended_lookup.
    rewrite decide_True by reflexivity. rewrite Hs1.
    cbn [fmap option_fmap option_map]. rewrite ended_twice.
    now destruct (Session.ran_out t1 _). }
  split; [unfold Session.play; cbn [fst]; now rewrite E1|].
  split; [exact Hq1|]. split.
  - unfold Session.pause. cbn [fst]. unfold pause. now rewrite Hl1.
  - unfold Session.getCurrentTime, getCurrentTime. now rewrite Hl1.
Qed.

Lemma play_replaced_source_resets_witness :
  fst (Session.pause 40
         (snd (Session.play 30
                 (Demo.session [("a"%string, Demo.playing "a" 128 1)])
                 "a" (Some 60))) "a") = false.
Proof.
  apply (play_replaced_source_resets
           (Demo.session [("a"%string, Demo.playing "a" 128 1)]) "a"
           (Demo.playing "a" 128 1) Demo.track
           {| source_buffer := Demo.track; source_playbackRate := 1;
              source_when := 0; source_offset := 0 |}
           (Some 60) 30 40);
    reflexivity.
Defined.
